(** * Verification of [DkCardanoWalletExtension] (src/wallet-externsion.ts)

    The class has one public entry point, [verifySignedMessage], and two
    private helpers, [verifyPayload] and [verifyAddress].  All three are
    embedded below as executable Rocq functions.

    The code is effectful in two ways that the properties depend on: it
    throws and catches JavaScript exceptions, and it calls into two
    external packages (and [console.log]).  Both are made explicit: a
    computation of type [M A] yields the list of events it performed (calls
    into the packages, log lines) together with either a thrown value or a
    result.

    The two imported packages, [@emurgo/cardano-serialization-lib-nodejs]
    ([S] in the source) and [@emurgo/cardano-message-signing-nodejs] ([MS]),
    are not part of the repository.  They are taken as parameters: a record
    of types and operations for each, with the signatures the TypeScript
    declarations give them.  Node's [Buffer] is modelled concretely. *)

From Stdlib Require Import List String Ascii ZArith NArith Bool Lia.
From Stdlib Require Import Strings.Byte.
Import ListNotations.
Local Open Scope string_scope.
Local Open Scope list_scope.

Set Implicit Arguments.

(* ===================================================================== *)
(** ** Node's [Buffer] *)
(* ===================================================================== *)

Definition bytes := list byte.

(** Value of one hexadecimal digit; both cases are accepted. *)
Definition hex_digit (c : ascii) : option N :=
  let n := N_of_ascii c in
  if ((48 <=? n) && (n <=? 57))%N then Some (n - 48)%N
  else if ((97 <=? n) && (n <=? 102))%N then Some (n - 87)%N
  else if ((65 <=? n) && (n <=? 70))%N then Some (n - 55)%N
  else None.

Definition byte_of_N (n : N) : byte :=
  match Byte.of_N n with
  | Some b => b
  | None => x00
  end.

(** [Buffer.from(s, 'hex')]: pairs of digits are decoded from the left; the
    decoding stops, without an error, at the first pair that is not made of
    two hexadecimal digits, and a trailing single character is dropped. *)
Fixpoint Buffer_from_hex (s : string) : bytes :=
  match s with
  | String a (String b rest) =>
      match hex_digit a, hex_digit b with
      | Some h, Some l => byte_of_N (16 * h + l) :: Buffer_from_hex rest
      | _, _ => []
      end
  | _ => []
  end.


(** [a.compare(b)]: -1, 0 or 1 as [a] sorts before, equal to or after [b],
    bytes compared as unsigned numbers, a proper prefix sorting first. *)
Fixpoint Buffer_compare (a b : bytes) : Z :=
  match a, b with
  | [], [] => 0
  | [], _ :: _ => -1
  | _ :: _, [] => 1
  | x :: a', y :: b' =>
      match N.compare (Byte.to_N x) (Byte.to_N y) with
      | Lt => -1
      | Gt => 1
      | Eq => Buffer_compare a' b'
      end
  end%Z.

(** A number used as a condition: every number but zero is truthy. *)
Definition truthy (n : Z) : bool := negb (Z.eqb n 0).

(* ===================================================================== *)
(** ** Thrown values, events and the monad *)
(* ===================================================================== *)

(** What a [throw] can carry here: an [Error] object (made by this file
    with [new Error(msg)], or by the generated binding glue when an argument
    is not an instance of the expected class), a [TypeError] of the runtime
    (use of [undefined]), or the error object one of the two packages throws
    from its own code, kept with its message. *)
Inductive JsThrown : Type :=
| ErrorObj (msg : string)
| TypeError (msg : string)
| LibThrown (msg : string).

(** [e.message] *)
Definition message (e : JsThrown) : string :=
  match e with
  | ErrorObj m => m
  | TypeError m => m
  | LibThrown m => m
  end.

(** Entry points of the two packages, one constructor per method the source
    calls. *)
Inductive prim : Type :=
| P_COSESign1_from_bytes
| P_COSESign1_payload
| P_COSESign1_headers
| P_Headers_protected
| P_deserialized_headers
| P_Label_new_text
| P_HeaderMap_header
| P_CBORValue_as_bytes
| P_Address_from_bytes
| P_COSEKey_from_bytes
| P_BigNum_from_str
| P_Int_new_negative
| P_Label_new_int
| P_COSEKey_header
| P_PublicKey_from_bytes
| P_COSESign1_signature
| P_Ed25519Signature_from_bytes
| P_COSESign1_signed_data
| P_SigStructure_to_bytes
| P_PublicKey_verify
| P_Address_to_bech32
| P_BaseAddress_from_address
| P_PublicKey_hash
| P_BaseAddress_stake_cred
| P_StakeCredential_to_keyhash
| P_Address_network_id
| P_StakeCredential_from_keyhash
| P_BaseAddress_new
| P_BaseAddress_to_address
| P_RewardAddress_new
| P_RewardAddress_to_address.

Inductive event : Type :=
| Invoke (p : prim)
| Log (line : string).

(** A computation: the events it performed, in order, and how it ended. *)
Definition M (A : Type) : Type := (list event * (JsThrown + A))%type.

Definition trace {A} (m : M A) : list event := fst m.
Definition value {A} (m : M A) : JsThrown + A := snd m.

Definition ret {A} (a : A) : M A := ([], inr a).
Definition throw {A} (e : JsThrown) : M A := ([], inl e).

Definition bind {A B} (m : M A) (f : A -> M B) : M B :=
  match m with
  | (t, inl e) => (t, inl e)
  | (t, inr a) => let (t', r) := f a in (t ++ t', r)
  end.

(** [try { body } catch (e) { handler }] *)
Definition try_catch {A} (body : M A) (handler : JsThrown -> M A) : M A :=
  match body with
  | (t, inl e) => let (t', r) := handler e in (t ++ t', r)
  | (t, inr a) => (t, inr a)
  end.

Declare Scope js_scope.
Delimit Scope js_scope with js.
Notation "x <- m ;; k" := (bind m (fun x => k))
  (at level 61, m at next level, right associativity) : js_scope.
Notation "m ;;; k" := (bind m (fun _ => k))
  (at level 61, right associativity) : js_scope.
Local Open Scope js_scope.

(** [console.log(line)] *)
Definition console_log (line : string) : M unit := ([Log line], inr tt).

(** A call into a package that may throw. *)
Definition call {A} (p : prim) (r : string + A) : M A :=
  ([Invoke p], match r with
               | inl msg => inl (LibThrown msg)
               | inr a => inr a
               end).

(** A call into a package that returns. *)
Definition call_pure {A} (p : prim) (a : A) : M A := ([Invoke p], inr a).

(** The receiver of a method call.  TypeScript's postfix [!] (written twice
    in the source, [!!]) is erased by the compiler, so an [undefined] value
    reaches the call, where the runtime throws. *)
Definition receiver {A} (method : string) (o : option A) : M A :=
  match o with
  | Some a => ret a
  | None =>
      throw (TypeError ("Cannot read properties of undefined (reading '"
                          ++ method ++ "')"))
  end.

(** A byte-array argument handed to a [from_bytes] of a package: the glue
    reads its [length], which throws on [undefined]. *)
Definition bytes_argument (o : option bytes) : M bytes :=
  match o with
  | Some b => ret b
  | None =>
      throw (TypeError "Cannot read properties of undefined (reading 'length')")
  end.

(** An object argument handed to a package: the glue checks its class. *)
Definition instance_argument {A} (class : string) (o : option A) : M A :=
  match o with
  | Some a => ret a
  | None => throw (ErrorObj ("expected instance of " ++ class))
  end.

(** [Buffer.from(v)] for a value typed [Uint8Array]; [undefined] is not an
    accepted argument. *)
Definition Buffer_from (o : option bytes) : M bytes :=
  match o with
  | Some b => ret b
  | None =>
      throw (TypeError
        "The first argument must be of type string or an instance of Buffer, ArrayBuffer, or Array or an Array-like Object. Received undefined")
  end.

(** How a block of statements ends: with a [return], or by reaching its
    end. *)
Inductive completion : Type :=
| Return (b : bool)
| Normal.

(* ===================================================================== *)
(** ** The two packages *)
(* ===================================================================== *)

(** [import * as S from '@emurgo/cardano-serialization-lib-nodejs'] *)
Class SerializationLib : Type := {
  Address : Type;
  BaseAddress : Type;
  RewardAddress : Type;
  StakeCredential : Type;
  Ed25519KeyHash : Type;
  PublicKey : Type;
  Ed25519Signature : Type;
  Address_from_bytes : bytes -> string + Address;
  Address_to_bech32 : Address -> string + string;
  Address_network_id : Address -> string + N;
  BaseAddress_from_address : Address -> option BaseAddress;
  BaseAddress_new : N -> StakeCredential -> StakeCredential -> BaseAddress;
  BaseAddress_stake_cred : BaseAddress -> StakeCredential;
  BaseAddress_to_address : BaseAddress -> Address;
  RewardAddress_new : N -> StakeCredential -> RewardAddress;
  RewardAddress_to_address : RewardAddress -> Address;
  StakeCredential_from_keyhash : Ed25519KeyHash -> StakeCredential;
  StakeCredential_to_keyhash : StakeCredential -> option Ed25519KeyHash;
  PublicKey_from_bytes : bytes -> string + PublicKey;
  PublicKey_hash : PublicKey -> Ed25519KeyHash;
  PublicKey_verify : PublicKey -> bytes -> Ed25519Signature -> bool;
  Ed25519Signature_from_bytes : bytes -> string + Ed25519Signature
}.

(** [import * as MS from '@emurgo/cardano-message-signing-nodejs'] *)
Class MessageSigning : Type := {
  COSESign1 : Type;
  Headers : Type;
  ProtectedHeaderMap : Type;
  HeaderMap : Type;
  COSEKey : Type;
  CBORValue : Type;
  Label : Type;
  Int : Type;
  BigNum : Type;
  SigStructure : Type;
  COSESign1_from_bytes : bytes -> string + COSESign1;
  COSESign1_payload : COSESign1 -> option bytes;
  COSESign1_headers : COSESign1 -> Headers;
  COSESign1_signature : COSESign1 -> bytes;
  COSESign1_signed_data : COSESign1 -> string + SigStructure;
  Headers_protected : Headers -> ProtectedHeaderMap;
  deserialized_headers : ProtectedHeaderMap -> HeaderMap;
  HeaderMap_header : HeaderMap -> Label -> option CBORValue;
  COSEKey_from_bytes : bytes -> string + COSEKey;
  COSEKey_header : COSEKey -> Label -> option CBORValue;
  CBORValue_as_bytes : CBORValue -> option bytes;
  Label_new_text : string -> Label;
  Label_new_int : Int -> Label;
  Int_new_negative : BigNum -> Int;
  BigNum_from_str : string -> string + BigNum;
  SigStructure_to_bytes : SigStructure -> bytes
}.

(* ===================================================================== *)
(** ** [class DkCardanoWalletExtension] *)
(* ===================================================================== *)

Section DkCardanoWalletExtension.

Context {S : SerializationLib} {MS : MessageSigning}.

(** Lines 61-63.  [payloadCose] is typed [Uint8Array] but holds whatever
    [coseSign1.payload()] returned, [undefined] included. *)
Definition verifyPayload (payload : string) (payloadCose : option bytes)
  : M Z :=
  a <- Buffer_from payloadCose ;;
  ret (Buffer_compare a (Buffer_from_hex payload)).

(** Lines 74-91, the body of the first inner [try]. *)
Definition verifyAddress_base (checkAddress addressCose : Address)
    (publicKeyCose : PublicKey) : M completion :=
  from_address <- call_pure P_BaseAddress_from_address
                    (BaseAddress_from_address addressCose) ;;
  paymentKeyHash <- call_pure P_PublicKey_hash (PublicKey_hash publicKeyCose) ;;
  baseAddress <- receiver "stake_cred" from_address ;;
  stake_cred <- call_pure P_BaseAddress_stake_cred
                  (BaseAddress_stake_cred baseAddress) ;;
  stakeKeyHash <- call_pure P_StakeCredential_to_keyhash
                    (StakeCredential_to_keyhash stake_cred) ;;
  network <- call P_Address_network_id (Address_network_id checkAddress) ;;
  payment <- call_pure P_StakeCredential_from_keyhash
               (StakeCredential_from_keyhash paymentKeyHash) ;;
  stakeKeyHash' <- instance_argument "Ed25519KeyHash" stakeKeyHash ;;
  stake <- call_pure P_StakeCredential_from_keyhash
             (StakeCredential_from_keyhash stakeKeyHash') ;;
  reconstructedAddress <- call_pure P_BaseAddress_new
                            (BaseAddress_new network payment stake) ;;
  check_bech32 <- call P_Address_to_bech32 (Address_to_bech32 checkAddress) ;;
  reconstructed <- call_pure P_BaseAddress_to_address
                     (BaseAddress_to_address reconstructedAddress) ;;
  reconstructed_bech32 <- call P_Address_to_bech32
                            (Address_to_bech32 reconstructed) ;;
  if negb (String.eqb check_bech32 reconstructed_bech32)
  then ret (Return false)
  else ret (Return true).

(** Lines 97-111, the body of the second inner [try]. *)
Definition verifyAddress_reward (checkAddress : Address)
    (publicKeyCose : PublicKey) : M completion :=
  stakeKeyHash <- call_pure P_PublicKey_hash (PublicKey_hash publicKeyCose) ;;
  network <- call P_Address_network_id (Address_network_id checkAddress) ;;
  stake <- call_pure P_StakeCredential_from_keyhash
             (StakeCredential_from_keyhash stakeKeyHash) ;;
  reconstructedAddress <- call_pure P_RewardAddress_new
                            (RewardAddress_new network stake) ;;
  check_bech32 <- call P_Address_to_bech32 (Address_to_bech32 checkAddress) ;;
  reconstructed <- call_pure P_RewardAddress_to_address
                     (RewardAddress_to_address reconstructedAddress) ;;
  reconstructed_bech32 <- call P_Address_to_bech32
                            (Address_to_bech32 reconstructed) ;;
  if negb (String.eqb check_bech32 reconstructed_bech32)
  then ret (Return false)
  else ret (Return true).

(** Lines 96-114: the second inner [try] with its [catch]. *)
Definition verifyAddress_reward_try (checkAddress : Address)
    (publicKeyCose : PublicKey) : M completion :=
  try_catch (verifyAddress_reward checkAddress publicKeyCose)
    (fun e =>
       console_log ("---> The address is not reward address, error: "
                      ++ message e) ;;;
       ret Normal).

(** Lines 66-118: the outer [try] with its [catch]. *)
Definition verifyAddress_try (address : string) (addressCose : Address)
    (publicKeyCose : PublicKey) : M completion :=
  try_catch
    (checkAddress <- call P_Address_from_bytes
                       (Address_from_bytes (Buffer_from_hex address)) ;;
     cose_bech32 <- call P_Address_to_bech32 (Address_to_bech32 addressCose) ;;
     check_bech32 <- call P_Address_to_bech32 (Address_to_bech32 checkAddress) ;;
     if negb (String.eqb cose_bech32 check_bech32)
     then ret (Return false)
     else
       c <- try_catch (verifyAddress_base checkAddress addressCose publicKeyCose)
              (fun e =>
                 console_log ("---> The address is not base address, error: "
                                ++ message e) ;;;
                 ret Normal) ;;
       match c with
       | Return b => ret (Return b)
       | Normal => verifyAddress_reward_try checkAddress publicKeyCose
       end)
    (fun e =>
       console_log ("---> Could not verify address, error: " ++ message e) ;;;
       ret Normal).

(** Line 120 closes the function: a block that did not return leaves
    [false] as the result. *)
Definition or_false (c : completion) : bool :=
  match c with
  | Return b => b
  | Normal => false
  end.

(** Lines 65-121. *)
Definition verifyAddress (address : string) (addressCose : Address)
    (publicKeyCose : PublicKey) : M bool :=
  c <- verifyAddress_try address addressCose publicKeyCose ;;
  ret (or_false c).

(** Lines 96-120: the function from its second inner [try] on. *)
Definition verifyAddress_from_reward (checkAddress : Address)
    (publicKeyCose : PublicKey) : M bool :=
  c <- verifyAddress_reward_try checkAddress publicKeyCose ;;
  ret (or_false c).

(** Lines 32-39: the address stored under the protected header
    ["address"]. *)
Definition embedded_address (coseSign1 : COSESign1) : M Address :=
  headers <- call_pure P_COSESign1_headers (COSESign1_headers coseSign1) ;;
  protected <- call_pure P_Headers_protected (Headers_protected headers) ;;
  protectedHeaders <- call_pure P_deserialized_headers
                        (deserialized_headers protected) ;;
  label <- call_pure P_Label_new_text (Label_new_text "address") ;;
  header <- call_pure P_HeaderMap_header
              (HeaderMap_header protectedHeaders label) ;;
  header' <- receiver "as_bytes" header ;;
  as_bytes <- call_pure P_CBORValue_as_bytes (CBORValue_as_bytes header') ;;
  as_bytes' <- bytes_argument as_bytes ;;
  call P_Address_from_bytes (Address_from_bytes as_bytes').

(** Lines 43-48: the public key stored under label -2 of the COSE key. *)
Definition embedded_public_key (coseKeyHex : string) : M PublicKey :=
  coseKey <- call P_COSEKey_from_bytes
               (COSEKey_from_bytes (Buffer_from_hex coseKeyHex)) ;;
  two <- call P_BigNum_from_str (BigNum_from_str "2") ;;
  minus_two <- call_pure P_Int_new_negative (Int_new_negative two) ;;
  label <- call_pure P_Label_new_int (Label_new_int minus_two) ;;
  header <- call_pure P_COSEKey_header (COSEKey_header coseKey label) ;;
  header' <- receiver "as_bytes" header ;;
  publicKeyBytes <- call_pure P_CBORValue_as_bytes (CBORValue_as_bytes header') ;;
  publicKeyBytes' <- bytes_argument publicKeyBytes ;;
  call P_PublicKey_from_bytes (PublicKey_from_bytes publicKeyBytes').

(** Lines 54-57: the signature check. *)
Definition verify_signature (coseSign1 : COSESign1) (publicKeyCose : PublicKey)
  : M bool :=
  signature_bytes <- call_pure P_COSESign1_signature
                       (COSESign1_signature coseSign1) ;;
  signature <- call P_Ed25519Signature_from_bytes
                 (Ed25519Signature_from_bytes signature_bytes) ;;
  sig_structure <- call P_COSESign1_signed_data
                     (COSESign1_signed_data coseSign1) ;;
  signed_data <- call_pure P_SigStructure_to_bytes
                   (SigStructure_to_bytes sig_structure) ;;
  call_pure P_PublicKey_verify
    (PublicKey_verify publicKeyCose signed_data signature).

(** Lines 31-57: what follows the payload check. *)
Definition after_payload_check (address : string) (coseSign1 : COSESign1)
    (coseKeyHex : string) : M bool :=
  addressCose <- embedded_address coseSign1 ;;
  publicKeyCose <- embedded_public_key coseKeyHex ;;
  ok <- verifyAddress address addressCose publicKeyCose ;;
  if negb ok then throw (ErrorObj "Address mismatch")
  else verify_signature coseSign1 publicKeyCose.

(** Lines 22-58. *)
Definition verifySignedMessage (address payload coseSign1Hex coseKeyHex : string)
  : M bool :=
  coseSign1 <- call P_COSESign1_from_bytes
                 (COSESign1_from_bytes (Buffer_from_hex coseSign1Hex)) ;;
  payloadCose <- call_pure P_COSESign1_payload (COSESign1_payload coseSign1) ;;
  mismatch <- verifyPayload payload payloadCose ;;
  if truthy mismatch then throw (ErrorObj "Payload mismatch")
  else after_payload_check address coseSign1 coseKeyHex.

End DkCardanoWalletExtension.

(* ===================================================================== *)
(** ** What the address round trips need from the serialization package *)
(* ===================================================================== *)

(** [verifyAddress] rebuilds an address from its parts and compares it with
    the one it was given.  That this succeeds on an address built the same
    way rests on the package: an address made from a base address is
    recognised as that base address and one made from a reward address is
    not; the constructors keep the network and the credentials they were
    given; a credential made from a key hash gives that hash back; and
    every base or reward address has a bech32 form. *)
Class AddressLaws (S : SerializationLib) : Prop := {
  from_address_base : forall b,
    BaseAddress_from_address (BaseAddress_to_address b) = Some b;
  from_address_reward : forall r,
    BaseAddress_from_address (RewardAddress_to_address r) = None;
  stake_cred_new : forall n p s,
    BaseAddress_stake_cred (BaseAddress_new n p s) = s;
  to_keyhash_from_keyhash : forall h,
    StakeCredential_to_keyhash (StakeCredential_from_keyhash h) = Some h;
  network_id_base : forall n p s,
    Address_network_id (BaseAddress_to_address (BaseAddress_new n p s)) = inr n;
  network_id_reward : forall n s,
    Address_network_id (RewardAddress_to_address (RewardAddress_new n s)) = inr n;
  to_bech32_base : forall b,
    exists s, Address_to_bech32 (BaseAddress_to_address b) = inr s;
  to_bech32_reward : forall r,
    exists s, Address_to_bech32 (RewardAddress_to_address r) = inr s
}.

(* ===================================================================== *)
(** ** An executable stand-in for the two packages *)
(* ===================================================================== *)

(** The properties below are stated for any implementation of the two
    packages.  To run the verifier on concrete inputs, this module gives a
    small implementation with the same interface.  Addresses follow the
    Shelley layout (a header byte holding the address type and the network,
    followed by one or two 28-byte credentials).  The envelope and key
    encodings, the hash and the signature scheme are deliberately simple
    length-prefixed and prefix-based stand-ins, not CBOR, Blake2b or
    Ed25519: nothing proved for all implementations depends on them. *)
Module Fixture.

Definition hex_char (n : N) : ascii :=
  if (n <? 10)%N then ascii_of_N (48 + n) else ascii_of_N (87 + n).

Fixpoint to_hex (b : bytes) : string :=
  match b with
  | [] => EmptyString
  | x :: b' =>
      String (hex_char (Byte.to_N x / 16))
        (String (hex_char (Byte.to_N x mod 16)) (to_hex b'))
  end.

Definition byte_eqb (x y : byte) : bool := (Byte.to_N x =? Byte.to_N y)%N.

Fixpoint bytes_eqb (a b : bytes) : bool :=
  match a, b with
  | [], [] => true
  | x :: a', y :: b' => byte_eqb x y && bytes_eqb a' b'
  | _, _ => false
  end.

(** *** Addresses and keys *)

Inductive credential : Type :=
| KeyCred (h : bytes)
| ScriptCred (h : bytes).

Record base_address : Type :=
  { base_network : N; base_payment : credential; base_stake : credential }.

Record reward_address : Type :=
  { reward_network : N; reward_stake : credential }.

Inductive address : Type :=
| Base (b : base_address)
| Reward (r : reward_address)
| Enterprise (network : N) (payment : credential).

Definition cred_hash (c : credential) : bytes :=
  match c with
  | KeyCred h => h
  | ScriptCred h => h
  end.

Definition cred_bit (c : credential) : N :=
  match c with
  | KeyCred _ => 0
  | ScriptCred _ => 1
  end.

Definition mk_cred (script : bool) (h : bytes) : credential :=
  if script then ScriptCred h else KeyCred h.

Definition header (type network : N) : byte :=
  byte_of_N (16 * type + network mod 16).

Definition address_to_bytes (a : address) : bytes :=
  match a with
  | Base b =>
      header (cred_bit (base_payment b) + 2 * cred_bit (base_stake b))
             (base_network b)
        :: cred_hash (base_payment b) ++ cred_hash (base_stake b)
  | Enterprise n p => header (6 + cred_bit p) n :: cred_hash p
  | Reward r =>
      header (14 + cred_bit (reward_stake r)) (reward_network r)
        :: cred_hash (reward_stake r)
  end.

Definition address_from_bytes (b : bytes) : string + address :=
  match b with
  | [] => inl "address: no header byte"
  | hd :: body =>
      let type := (Byte.to_N hd / 16)%N in
      let network := (Byte.to_N hd mod 16)%N in
      if (type <? 4)%N then
        if (List.length body =? 56)%nat then
          inr (Base {| base_network := network;
                       base_payment := mk_cred (N.testbit type 0) (firstn 28 body);
                       base_stake := mk_cred (N.testbit type 1) (skipn 28 body) |})
        else inl "address: a base address has 57 bytes"
      else if ((type =? 6) || (type =? 7))%N then
        if (List.length body =? 28)%nat then
          inr (Enterprise network (mk_cred (type =? 7)%N body))
        else inl "address: an enterprise address has 29 bytes"
      else if ((type =? 14) || (type =? 15))%N then
        if (List.length body =? 28)%nat then
          inr (Reward {| reward_network := network;
                         reward_stake := mk_cred (type =? 15)%N body |})
        else inl "address: a reward address has 29 bytes"
      else inl "address: unsupported type"
  end.

Definition address_network (a : address) : N :=
  match a with
  | Base b => base_network b
  | Reward r => reward_network r
  | Enterprise n _ => n
  end.

(** Stand-in for bech32: a prefix by kind and network, then the bytes in
    hexadecimal. *)
Definition address_to_bech32 (a : address) : string + string :=
  let kind := match a with
              | Reward _ => "stake"
              | _ => "addr"
              end in
  let net := if (address_network a mod 16 =? 1)%N then "" else "_test" in
  inr (kind ++ net ++ "1" ++ to_hex (address_to_bytes a))%string.

Definition public_key_from_bytes (b : bytes) : string + bytes :=
  if (List.length b =? 32)%nat then inr b else inl "public key: expected 32 bytes".

Definition signature_from_bytes (b : bytes) : string + bytes :=
  if (List.length b =? 64)%nat then inr b else inl "signature: expected 64 bytes".

(** Stand-in for the key hash: the first 28 bytes of the key. *)
Definition key_hash (pk : bytes) : bytes := firstn 28 pk.

(** Stand-in for the signature of [data] under the key pair of [pk]. *)
Definition sign (pk data : bytes) : bytes :=
  pk ++ firstn 32 (data ++ repeat x00 32).

Definition verify (pk data sig : bytes) : bool := bytes_eqb sig (sign pk data).

#[export] Instance serialization : SerializationLib := {|
  Address := address;
  BaseAddress := base_address;
  RewardAddress := reward_address;
  StakeCredential := credential;
  Ed25519KeyHash := bytes;
  PublicKey := bytes;
  Ed25519Signature := bytes;
  Address_from_bytes := address_from_bytes;
  Address_to_bech32 := address_to_bech32;
  Address_network_id := fun a => inr (address_network a);
  BaseAddress_from_address :=
    fun a => match a with
             | Base b => Some b
             | _ => None
             end;
  BaseAddress_new :=
    fun n p s => {| base_network := n; base_payment := p; base_stake := s |};
  BaseAddress_stake_cred := base_stake;
  BaseAddress_to_address := Base;
  RewardAddress_new := fun n s => {| reward_network := n; reward_stake := s |};
  RewardAddress_to_address := Reward;
  StakeCredential_from_keyhash := KeyCred;
  StakeCredential_to_keyhash :=
    fun c => match c with
             | KeyCred h => Some h
             | ScriptCred _ => None
             end;
  PublicKey_from_bytes := public_key_from_bytes;
  PublicKey_hash := key_hash;
  PublicKey_verify := verify;
  Ed25519Signature_from_bytes := signature_from_bytes
|}.

(** *** Envelopes and keys *)

Inductive label : Type :=
| LText (s : string)
| LInt (z : Z).

Inductive cbor : Type :=
| CBytes (b : bytes)
| CText (s : string).

Definition label_eqb (a b : label) : bool :=
  match a, b with
  | LText s, LText t => String.eqb s t
  | LInt x, LInt y => Z.eqb x y
  | _, _ => false
  end.

Definition header_map := list (label * cbor).

Fixpoint lookup (m : header_map) (l : label) : option cbor :=
  match m with
  | [] => None
  | (k, v) :: m' => if label_eqb k l then Some v else lookup m' l
  end.

Record cose_sign1 : Type :=
  { cs_protected : header_map;
    cs_payload : option bytes;
    cs_signature : bytes }.

(** A field on the wire: one length byte, then that many bytes. *)
Definition field (b : bytes) : bytes := byte_of_N (N.of_nat (List.length b)) :: b.

Definition take_field (b : bytes) : option (bytes * bytes) :=
  match b with
  | [] => None
  | len :: rest =>
      let n := N.to_nat (Byte.to_N len) in
      if (n <=? List.length rest)%nat then Some (firstn n rest, skipn n rest)
      else None
  end.

(** An envelope on the wire: a flag byte (bit 0: an ["address"] header is
    present, bit 1: a payload is present), then the fields that are
    present, then the signature field. *)
Definition cose_sign1_to_bytes (address : option bytes) (payload : option bytes)
    (signature : bytes) : bytes :=
  byte_of_N (match address with Some _ => 1 | None => 0 end
             + match payload with Some _ => 2 | None => 0 end)
    :: match address with Some a => field a | None => [] end
    ++ match payload with Some p => field p | None => [] end
    ++ field signature.

Definition cose_sign1_from_bytes (b : bytes) : string + cose_sign1 :=
  match b with
  | [] => inl "envelope: no flag byte"
  | flag :: rest =>
      let f := Byte.to_N flag in
      let address :=
        if N.testbit f 0
        then option_map (fun ar => ([(LText "address", CBytes (fst ar))], snd ar))
               (take_field rest)
        else Some ([], rest) in
      match address with
      | None => inl "envelope: truncated address header"
      | Some (protected, rest1) =>
          let payload :=
            if N.testbit f 1
            then option_map (fun pr => (Some (fst pr), snd pr)) (take_field rest1)
            else Some (None, rest1) in
          match payload with
          | None => inl "envelope: truncated payload"
          | Some (payload, rest2) =>
              match take_field rest2 with
              | Some (signature, []) =>
                  inr {| cs_protected := protected;
                         cs_payload := payload;
                         cs_signature := signature |}
              | _ => inl "envelope: malformed signature field"
              end
          end
      end
  end.

(** The bytes that are signed: the protected byte headers, then the
    payload. *)
Definition signed_data (c : cose_sign1) : string + bytes :=
  match cs_payload c with
  | None => inl "envelope: nothing to sign"
  | Some p =>
      inr (flat_map (fun kv => match snd kv with
                               | CBytes b => b
                               | CText _ => []
                               end) (cs_protected c) ++ p)
  end.

(** A key on the wire: entries of one byte [k] (the label is [-k]) and one
    field. *)
Fixpoint cose_key_entries (fuel : nat) (b : bytes) : option header_map :=
  match fuel with
  | O => None
  | S fuel' =>
      match b with
      | [] => Some []
      | k :: rest =>
          match take_field rest with
          | None => None
          | Some (v, rest') =>
              option_map (cons (LInt (- Z.of_N (Byte.to_N k)), CBytes v))
                (cose_key_entries fuel' rest')
          end
      end
  end.

Definition cose_key_from_bytes (b : bytes) : string + header_map :=
  match cose_key_entries (Datatypes.S (List.length b)) b with
  | Some m => inr m
  | None => inl "key: truncated entry"
  end.

Fixpoint decimal (s : string) (acc : N) : option N :=
  match s with
  | EmptyString => Some acc
  | String c s' =>
      let n := N_of_ascii c in
      if ((48 <=? n) && (n <=? 57))%N then decimal s' (10 * acc + (n - 48))
      else None
  end.

Definition bignum_from_str (s : string) : string + N :=
  match s with
  | EmptyString => inl "number: empty"
  | _ => match decimal s 0 with
         | Some n => inr n
         | None => inl "number: not a digit"
         end
  end.

#[export] Instance message_signing : MessageSigning := {|
  COSESign1 := cose_sign1;
  Headers := header_map;
  ProtectedHeaderMap := header_map;
  HeaderMap := header_map;
  COSEKey := header_map;
  CBORValue := cbor;
  Label := label;
  Int := Z;
  BigNum := N;
  SigStructure := bytes;
  COSESign1_from_bytes := cose_sign1_from_bytes;
  COSESign1_payload := cs_payload;
  COSESign1_headers := cs_protected;
  COSESign1_signature := cs_signature;
  COSESign1_signed_data := signed_data;
  Headers_protected := fun h => h;
  deserialized_headers := fun h => h;
  HeaderMap_header := lookup;
  COSEKey_from_bytes := cose_key_from_bytes;
  COSEKey_header := lookup;
  CBORValue_as_bytes :=
    fun v => match v with
             | CBytes b => Some b
             | CText _ => None
             end;
  Label_new_text := LText;
  Label_new_int := LInt;
  Int_new_negative := fun n => (- Z.of_N n)%Z;
  BigNum_from_str := bignum_from_str;
  SigStructure_to_bytes := fun b => b
|}.

(** *** Sample data *)

Definition sample_key : bytes := repeat x01 28 ++ [x0a; x0b; x0c; x0d].
Definition other_key : bytes := repeat x03 32.
Definition sample_stake_hash : bytes := repeat x02 28.
Definition sample_script_hash : bytes := repeat x05 28.

Definition sample_base : address :=
  Base {| base_network := 0;
          base_payment := KeyCred (key_hash sample_key);
          base_stake := KeyCred sample_stake_hash |}.

Definition sample_reward : address :=
  Reward {| reward_network := 1;
            reward_stake := KeyCred (key_hash sample_key) |}.

Definition sample_enterprise : address :=
  Enterprise 0 (KeyCred (key_hash sample_key)).

(** A base address whose stake part is a script. *)
Definition sample_base_script : address :=
  Base {| base_network := 0;
          base_payment := KeyCred (key_hash sample_key);
          base_stake := ScriptCred sample_script_hash |}.

Definition hex_of_address (a : address) : string := to_hex (address_to_bytes a).

(** The hexadecimal form of "nonce-123". *)
Definition sample_payload_hex : string := "6e6f6e63652d313233".

(** The envelope a wallet holding [signer] returns for [payload] when it
    claims address [a]. *)
Definition envelope_hex (a : address) (payload signer : bytes) : string :=
  to_hex (cose_sign1_to_bytes (Some (address_to_bytes a)) (Some payload)
            (sign signer (address_to_bytes a ++ payload))).

(** The same without a payload. *)
Definition detached_envelope_hex (a : address) (signer : bytes) : string :=
  to_hex (cose_sign1_to_bytes (Some (address_to_bytes a)) None
            (sign signer (address_to_bytes a))).

(** The envelope above once decoded, for [sample_payload_hex] signed by
    [sample_key]. *)
Definition sample_envelope (a : address) : cose_sign1 :=
  {| cs_protected := [(LText "address", CBytes (address_to_bytes a))];
     cs_payload := Some (Buffer_from_hex sample_payload_hex);
     cs_signature :=
       sign sample_key (address_to_bytes a ++ Buffer_from_hex sample_payload_hex) |}.

Definition sample_envelope_hex (a : address) : string :=
  envelope_hex a (Buffer_from_hex sample_payload_hex) sample_key.

(** The key structure for [pk]: label -1 holds a curve tag, label -2 the
    key. *)
Definition key_hex (pk : bytes) : string :=
  to_hex (x01 :: field [x06] ++ x02 :: field pk).

End Fixture.

(** More inputs for the stand-in packages. *)
Module Samples.

Import Fixture.

(** An envelope whose protected headers have no ["address"] entry. *)
Definition headerless_envelope_hex : string :=
  to_hex (cose_sign1_to_bytes None (Some (Buffer_from_hex sample_payload_hex))
            (sign sample_key (Buffer_from_hex sample_payload_hex))).

Definition headerless_envelope : cose_sign1 :=
  {| cs_protected := [];
     cs_payload := Some (Buffer_from_hex sample_payload_hex);
     cs_signature := sign sample_key (Buffer_from_hex sample_payload_hex) |}.

(** An envelope for [a] whose signature field holds three bytes. *)
Definition short_signature_envelope_hex (a : address) : string :=
  to_hex (cose_sign1_to_bytes (Some (address_to_bytes a))
            (Some (Buffer_from_hex sample_payload_hex)) [x01; x02; x03]).

Definition short_signature_envelope (a : address) : cose_sign1 :=
  {| cs_protected := [(LText "address", CBytes (address_to_bytes a))];
     cs_payload := Some (Buffer_from_hex sample_payload_hex);
     cs_signature := [x01; x02; x03] |}.

(** An envelope for [a] signed by [other_key]. *)
Definition forged_envelope (a : address) : cose_sign1 :=
  {| cs_protected := [(LText "address", CBytes (address_to_bytes a))];
     cs_payload := Some (Buffer_from_hex sample_payload_hex);
     cs_signature :=
       sign other_key (address_to_bytes a ++ Buffer_from_hex sample_payload_hex) |}.

Definition forged_envelope_hex (a : address) : string :=
  envelope_hex a (Buffer_from_hex sample_payload_hex) other_key.

(** A key structure that only has label -1. *)
Definition keyless_hex : string := to_hex (x01 :: field [x06]).

(** The reward address of [other_key] on network 1. *)
Definition other_reward : address :=
  Reward {| reward_network := 1; reward_stake := KeyCred (key_hash other_key) |}.


End Samples.

(* ===================================================================== *)
(** ** Properties of [Buffer] *)
(* ===================================================================== *)

Example Buffer_from_hex_nonce :
  Buffer_from_hex "6e6f6e63652d313233"
  = [x6e; x6f; x6e; x63; x65; x2d; x31; x32; x33].
Proof. reflexivity. Qed.

Example Buffer_from_hex_upper_case : Buffer_from_hex "AbCD" = [xab; xcd].
Proof. reflexivity. Qed.

Example Buffer_from_hex_odd_length : Buffer_from_hex "abc" = [xab].
Proof. reflexivity. Qed.

Example Buffer_from_hex_stops : Buffer_from_hex "12zz34" = [x12].
Proof. reflexivity. Qed.

Example Buffer_compare_one_byte :
  Buffer_compare (Buffer_from_hex "6e6f6e63652d313233")
    (Buffer_from_hex "6e6f6e63652d313234") = (-1)%Z.
Proof. reflexivity. Qed.

Example Buffer_compare_unsigned :
  Buffer_compare [xff] [x01] = 1%Z /\ Buffer_compare [x01] [x01; x00] = (-1)%Z.
Proof. split; reflexivity. Qed.

Lemma to_N_inj (x y : byte) : Byte.to_N x = Byte.to_N y -> x = y.
Proof.
  intros E.
  assert (Some x = Some y) as H
    by (rewrite <- (Byte.of_to_N x), <- (Byte.of_to_N y), E; reflexivity).
  now inversion H.
Qed.

Lemma Buffer_compare_refl (a : bytes) : Buffer_compare a a = 0%Z.
Proof.
  induction a as [|x a IH]; simpl; [reflexivity|].
  now rewrite N.compare_refl.
Qed.

(** [compare] answers 0 on equal contents only. *)
Lemma Buffer_compare_zero (a b : bytes) : Buffer_compare a b = 0%Z -> a = b.
Proof.
  revert b; induction a as [|x a IH]; intros [|y b]; simpl; try discriminate.
  - reflexivity.
  - destruct (N.compare (Byte.to_N x) (Byte.to_N y)) eqn:C; try discriminate.
    intros E. apply N.compare_eq in C. apply to_N_inj in C.
    now rewrite C, (IH b E).
Qed.

Lemma truthy_compare (a b : bytes) :
  truthy (Buffer_compare a b) = false <-> a = b.
Proof.
  unfold truthy. rewrite negb_false_iff, Z.eqb_eq. split.
  - apply Buffer_compare_zero.
  - intros ->. apply Buffer_compare_refl.
Qed.

(* ===================================================================== *)
(** ** Properties of the verifier *)
(* ===================================================================== *)

(** Unfolding of the monad and of the wrappers around calls. *)
Ltac unfold_js :=
  unfold bind, try_catch, call, call_pure, receiver, bytes_argument,
    instance_argument, Buffer_from, console_log, ret, throw, trace, value in *.

(** One step of a run: case analysis on the next result the run waits
    for. *)
Ltac next_result :=
  match goal with
  | |- context [match ?x with _ => _ end] =>
      lazymatch x with
      | context [match _ with _ => _ end] => fail
      | _ => destruct x eqn:?
      end
  end.

Section Properties.

Context {S : SerializationLib} {MS : MessageSigning}.

(** *** The payload check *)

Lemma verifyPayload_run (payload : string) (payloadCose : bytes) :
  verifyPayload payload (Some payloadCose)
  = ([], inr (Buffer_compare payloadCose (Buffer_from_hex payload))).
Proof. reflexivity. Qed.

(** With an embedded payload equal to the decoded argument, the run goes
    past the payload check. *)
Lemma payload_check_passes
    (address payload coseSign1Hex coseKeyHex : string)
    (coseSign1 : COSESign1) :
  COSESign1_from_bytes (Buffer_from_hex coseSign1Hex) = inr coseSign1 ->
  COSESign1_payload coseSign1 = Some (Buffer_from_hex payload) ->
  verifySignedMessage address payload coseSign1Hex coseKeyHex
  = ([Invoke P_COSESign1_from_bytes; Invoke P_COSESign1_payload]
       ++ trace (after_payload_check address coseSign1 coseKeyHex),
     value (after_payload_check address coseSign1 coseKeyHex)).
Proof.
  intros Hdec Hpay. unfold verifySignedMessage.
  rewrite Hdec. cbn [bind call call_pure]. rewrite Hpay, verifyPayload_run.
  cbn [bind app]. rewrite Buffer_compare_refl. cbn [truthy Z.eqb negb].
  now destruct (after_payload_check address coseSign1 coseKeyHex).
Qed.

(** C2.  Payload exactness.  When the envelope decodes and carries a
    payload: if the embedded payload equals the bytes decoded from the
    payload argument, [verifyPayload] answers 0 and [verifySignedMessage]
    goes on with the steps after the check; if it differs in any way,
    [verifySignedMessage] throws [Error('Payload mismatch')] having called
    nothing but the envelope decoder and its [payload] accessor. *)
Theorem payload_exactness
    (address payload coseSign1Hex coseKeyHex : string)
    (coseSign1 : COSESign1) (payloadCose : bytes) :
  COSESign1_from_bytes (Buffer_from_hex coseSign1Hex) = inr coseSign1 ->
  COSESign1_payload coseSign1 = Some payloadCose ->
  (payloadCose = Buffer_from_hex payload ->
     verifyPayload payload (Some payloadCose) = ([], inr 0%Z)
     /\ verifySignedMessage address payload coseSign1Hex coseKeyHex
        = ([Invoke P_COSESign1_from_bytes; Invoke P_COSESign1_payload]
             ++ trace (after_payload_check address coseSign1 coseKeyHex),
           value (after_payload_check address coseSign1 coseKeyHex)))
  /\ (payloadCose <> Buffer_from_hex payload ->
        verifySignedMessage address payload coseSign1Hex coseKeyHex
        = ([Invoke P_COSESign1_from_bytes; Invoke P_COSESign1_payload],
           inl (ErrorObj "Payload mismatch"))).
Proof.
  intros Hdec Hpay. split.
  - intros ->. split.
    + rewrite verifyPayload_run, Buffer_compare_refl. reflexivity.
    + now apply payload_check_passes.
  - intros Hne. unfold verifySignedMessage.
    rewrite Hdec. cbn [bind call call_pure]. rewrite Hpay, verifyPayload_run.
    cbn [bind app].
    destruct (truthy _) eqn:T; [reflexivity|].
    apply truthy_compare in T. contradiction.
Qed.

(** C10.  An envelope that decodes but has no payload makes
    [verifySignedMessage] throw a [TypeError] of the runtime, raised by
    [Buffer.from(undefined)]: not a boolean, not one of the two [Error]s
    this file makes, not an error of a decoder. *)
Theorem missing_payload_throws_type_error
    (address payload coseSign1Hex coseKeyHex : string)
    (coseSign1 : COSESign1) :
  COSESign1_from_bytes (Buffer_from_hex coseSign1Hex) = inr coseSign1 ->
  COSESign1_payload coseSign1 = None ->
  let run := verifySignedMessage address payload coseSign1Hex coseKeyHex in
  (exists msg,
     run = ([Invoke P_COSESign1_from_bytes; Invoke P_COSESign1_payload],
            inl (TypeError msg)))
  /\ (forall b, value run <> inr b)
  /\ value run <> inl (ErrorObj "Payload mismatch")
  /\ value run <> inl (ErrorObj "Address mismatch")
  /\ (forall msg, value run <> inl (LibThrown msg)).
Proof.
  intros Hdec Hpay run. subst run. unfold verifySignedMessage.
  rewrite Hdec. cbn [bind call call_pure]. rewrite Hpay. cbn.
  repeat split; try (eexists; reflexivity); intros; discriminate.
Qed.

(** *** The address check *)

Ltac unfold_verifyAddress :=
  unfold verifyAddress, verifyAddress_try, verifyAddress_reward_try,
    verifyAddress_base, verifyAddress_reward in *.

(** Every path through [verifyAddress] ends in a [return]: each [throw]
    inside it is caught by one of its three [catch] clauses, none of which
    throws. *)
Lemma verifyAddress_returns (address : string) (addressCose : Address)
    (publicKeyCose : PublicKey) :
  exists b, value (verifyAddress address addressCose publicKeyCose) = inr b.
Proof.
  unfold_verifyAddress. unfold_js.
  repeat (next_result; cbn); eauto.
Qed.

(** [verifyAddress] never reaches the signature check. *)
Lemma verifyAddress_no_verify (address : string) (addressCose : Address)
    (publicKeyCose : PublicKey) :
  ~ In (Invoke P_PublicKey_verify)
       (trace (verifyAddress address addressCose publicKeyCose)).
Proof.
  unfold_verifyAddress. unfold_js.
  repeat (next_result; cbn); intuition discriminate.
Qed.

Lemma eqb_neq_false (s t : string) : s <> t -> String.eqb s t = false.
Proof. intros H. now apply String.eqb_neq. Qed.

(** The reward path with its [catch] starts with [publicKeyCose.hash()]
    and does not throw. *)
Lemma verifyAddress_reward_try_run (checkAddress : Address)
    (publicKeyCose : PublicKey) :
  exists rest c,
    verifyAddress_reward_try checkAddress publicKeyCose
    = (Invoke P_PublicKey_hash :: rest, inr c).
Proof.
  unfold verifyAddress_reward_try, verifyAddress_reward. unfold_js.
  repeat (next_result; cbn); eauto.
Qed.

(** C3.  When the claimed address decodes and its bech32 form differs from
    that of the embedded address, [verifyAddress] returns false after the
    decoding and the two [to_bech32] calls, whatever the public key is:
    neither reconstruction is started. *)
Theorem claimed_embedded_divergence
    (address : string) (addressCose checkAddress : Address)
    (publicKeyCose : PublicKey) (cose_bech32 check_bech32 : string) :
  Address_from_bytes (Buffer_from_hex address) = inr checkAddress ->
  Address_to_bech32 addressCose = inr cose_bech32 ->
  Address_to_bech32 checkAddress = inr check_bech32 ->
  cose_bech32 <> check_bech32 ->
  verifyAddress address addressCose publicKeyCose
  = ([Invoke P_Address_from_bytes; Invoke P_Address_to_bech32;
      Invoke P_Address_to_bech32], inr false).
Proof.
  intros Hdec Hcose Hcheck Hne.
  unfold verifyAddress, verifyAddress_try.
  rewrite Hdec. cbn [bind call try_catch]. rewrite Hcose.
  cbn [bind call try_catch]. rewrite Hcheck.
  cbn [bind call try_catch]. rewrite (eqb_neq_false Hne).
  reflexivity.
Qed.

(** C4.  Round trip for base addresses.  Let [A] be the base address built
    from network [N], the hash of [publicKeyCose] as payment credential and
    the key hash [H] as stake credential.  When the claimed address decodes
    to [A] and [A] is the embedded address, [verifyAddress] returns true,
    through the base path alone. *)
Theorem base_address_roundtrip (laws : AddressLaws S)
    (address : string) (publicKeyCose : PublicKey) (N : N)
    (H : Ed25519KeyHash) :
  let A := BaseAddress_to_address
             (BaseAddress_new N
                (StakeCredential_from_keyhash (PublicKey_hash publicKeyCose))
                (StakeCredential_from_keyhash H)) in
  Address_from_bytes (Buffer_from_hex address) = inr A ->
  verifyAddress address A publicKeyCose
  = ([Invoke P_Address_from_bytes; Invoke P_Address_to_bech32;
      Invoke P_Address_to_bech32; Invoke P_BaseAddress_from_address;
      Invoke P_PublicKey_hash; Invoke P_BaseAddress_stake_cred;
      Invoke P_StakeCredential_to_keyhash; Invoke P_Address_network_id;
      Invoke P_StakeCredential_from_keyhash;
      Invoke P_StakeCredential_from_keyhash; Invoke P_BaseAddress_new;
      Invoke P_Address_to_bech32; Invoke P_BaseAddress_to_address;
      Invoke P_Address_to_bech32], inr true).
Proof.
  intros A Hdec.
  destruct (to_bech32_base
              (BaseAddress_new N
                 (StakeCredential_from_keyhash (PublicKey_hash publicKeyCose))
                 (StakeCredential_from_keyhash H))) as [s Hs].
  fold A in Hs.
  unfold verifyAddress, verifyAddress_try, verifyAddress_base.
  rewrite Hdec. cbn [bind call call_pure try_catch]. rewrite Hs.
  cbn [bind call call_pure try_catch app]. rewrite String.eqb_refl.
  cbn [negb]. unfold A at 1. rewrite from_address_base.
  cbn [bind call call_pure try_catch receiver ret app].
  rewrite stake_cred_new, to_keyhash_from_keyhash.
  unfold A at 1. rewrite network_id_base.
  cbn [bind call call_pure try_catch instance_argument ret app].
  fold A. rewrite Hs.
  cbn [bind call call_pure try_catch app]. rewrite String.eqb_refl.
  reflexivity.
Qed.

(** C5.  Round trip for reward addresses.  Let [A] be the reward address
    built from network [N] and the hash of [publicKeyCose] as stake
    credential.  When the claimed address decodes to [A] and [A] is the
    embedded address, [verifyAddress] returns true: the base path gives up
    on an address that is not a base address, which is logged, and the
    reward path rebuilds [A]. *)
Theorem reward_address_roundtrip (laws : AddressLaws S)
    (address : string) (publicKeyCose : PublicKey) (N : N) :
  let A := RewardAddress_to_address
             (RewardAddress_new N
                (StakeCredential_from_keyhash (PublicKey_hash publicKeyCose))) in
  Address_from_bytes (Buffer_from_hex address) = inr A ->
  verifyAddress address A publicKeyCose
  = ([Invoke P_Address_from_bytes; Invoke P_Address_to_bech32;
      Invoke P_Address_to_bech32; Invoke P_BaseAddress_from_address;
      Invoke P_PublicKey_hash;
      Log "---> The address is not base address, error: Cannot read properties of undefined (reading 'stake_cred')";
      Invoke P_PublicKey_hash; Invoke P_Address_network_id;
      Invoke P_StakeCredential_from_keyhash; Invoke P_RewardAddress_new;
      Invoke P_Address_to_bech32; Invoke P_RewardAddress_to_address;
      Invoke P_Address_to_bech32], inr true).
Proof.
  intros A Hdec.
  destruct (to_bech32_reward
              (RewardAddress_new N
                 (StakeCredential_from_keyhash (PublicKey_hash publicKeyCose))))
    as [s Hs].
  fold A in Hs.
  unfold verifyAddress, verifyAddress_try, verifyAddress_base,
    verifyAddress_reward_try, verifyAddress_reward.
  rewrite Hdec. cbn [bind call call_pure try_catch]. rewrite Hs.
  cbn [bind call call_pure try_catch app]. rewrite String.eqb_refl.
  cbn [negb]. unfold A at 1. rewrite from_address_reward.
  cbn [bind call call_pure try_catch receiver ret throw console_log app
         message].
  unfold A at 1. rewrite network_id_reward.
  cbn [bind call call_pure try_catch ret app].
  fold A. rewrite Hs.
  cbn [bind call call_pure try_catch app]. rewrite String.eqb_refl.
  reflexivity.
Qed.

(** C6.  No fallback after a base mismatch.  When the embedded address is
    a base address with a key-hash stake credential, the base address is
    rebuilt, and its bech32 form differs from that of the claimed address,
    [verifyAddress] returns false from inside the base path: nothing is
    logged and no call of the reward path is made. *)
Theorem base_mismatch_no_fallback
    (address : string) (addressCose checkAddress : Address)
    (publicKeyCose : PublicKey) (baseAddress : BaseAddress)
    (stakeKeyHash : Ed25519KeyHash) (network : N)
    (bech32 reconstructed_bech32 : string) :
  Address_from_bytes (Buffer_from_hex address) = inr checkAddress ->
  Address_to_bech32 addressCose = inr bech32 ->
  Address_to_bech32 checkAddress = inr bech32 ->
  BaseAddress_from_address addressCose = Some baseAddress ->
  StakeCredential_to_keyhash (BaseAddress_stake_cred baseAddress)
  = Some stakeKeyHash ->
  Address_network_id checkAddress = inr network ->
  Address_to_bech32
    (BaseAddress_to_address
       (BaseAddress_new network
          (StakeCredential_from_keyhash (PublicKey_hash publicKeyCose))
          (StakeCredential_from_keyhash stakeKeyHash)))
  = inr reconstructed_bech32 ->
  bech32 <> reconstructed_bech32 ->
  let run := verifyAddress address addressCose publicKeyCose in
  run
  = ([Invoke P_Address_from_bytes; Invoke P_Address_to_bech32;
      Invoke P_Address_to_bech32; Invoke P_BaseAddress_from_address;
      Invoke P_PublicKey_hash; Invoke P_BaseAddress_stake_cred;
      Invoke P_StakeCredential_to_keyhash; Invoke P_Address_network_id;
      Invoke P_StakeCredential_from_keyhash;
      Invoke P_StakeCredential_from_keyhash; Invoke P_BaseAddress_new;
      Invoke P_Address_to_bech32; Invoke P_BaseAddress_to_address;
      Invoke P_Address_to_bech32], inr false)
  /\ ~ In (Invoke P_RewardAddress_new) (trace run)
  /\ ~ In (Invoke P_RewardAddress_to_address) (trace run)
  /\ (forall line, ~ In (Log line) (trace run)).
Proof.
  intros Hdec Hcose Hcheck Hbase Hstake Hnet Hrec Hne run.
  assert (run
          = ([Invoke P_Address_from_bytes; Invoke P_Address_to_bech32;
              Invoke P_Address_to_bech32; Invoke P_BaseAddress_from_address;
              Invoke P_PublicKey_hash; Invoke P_BaseAddress_stake_cred;
              Invoke P_StakeCredential_to_keyhash; Invoke P_Address_network_id;
              Invoke P_StakeCredential_from_keyhash;
              Invoke P_StakeCredential_from_keyhash; Invoke P_BaseAddress_new;
              Invoke P_Address_to_bech32; Invoke P_BaseAddress_to_address;
              Invoke P_Address_to_bech32], inr false)) as E.
  { subst run.
    unfold verifyAddress, verifyAddress_try, verifyAddress_base.
    rewrite Hdec. cbn [bind call call_pure try_catch]. rewrite Hcose.
    cbn [bind call call_pure try_catch]. rewrite Hcheck.
    cbn [bind call call_pure try_catch app]. rewrite String.eqb_refl.
    cbn [negb]. rewrite Hbase.
    cbn [bind call call_pure try_catch receiver ret app].
    rewrite Hstake, Hnet.
    cbn [bind call call_pure try_catch instance_argument ret app].
    rewrite Hrec.
    cbn [bind call call_pure try_catch app].
    rewrite (eqb_neq_false Hne). reflexivity. }
  rewrite E. cbn [trace fst].
  repeat split; try assumption; cbn [In]; intuition discriminate.
Qed.

(** C7.  [verifyAddress] always returns a boolean and never throws.  In
    particular a claimed address that fails to decode gives false, with one
    log line carrying the decoder's message; and an embedded address that
    is not a base address, compared with a claimed address that has the
    bech32 form of no reward address, gives false. *)
Theorem verifyAddress_total
    (address : string) (addressCose : Address) (publicKeyCose : PublicKey) :
  (exists b, value (verifyAddress address addressCose publicKeyCose) = inr b)
  /\ (forall msg,
        Address_from_bytes (Buffer_from_hex address) = inl msg ->
        verifyAddress address addressCose publicKeyCose
        = ([Invoke P_Address_from_bytes;
            Log ("---> Could not verify address, error: " ++ msg)],
           inr false))
  /\ (forall checkAddress,
        Address_from_bytes (Buffer_from_hex address) = inr checkAddress ->
        BaseAddress_from_address addressCose = None ->
        (forall r, Address_to_bech32 (RewardAddress_to_address r)
                   <> Address_to_bech32 checkAddress) ->
        value (verifyAddress address addressCose publicKeyCose) = inr false).
Proof.
  split; [apply verifyAddress_returns|]. split.
  - intros msg Hdec. unfold verifyAddress, verifyAddress_try.
    rewrite Hdec. reflexivity.
  - intros checkAddress Hdec Hbase Hreward.
    unfold_verifyAddress. unfold_js. rewrite Hdec, Hbase. cbn.
    repeat (next_result; cbn); try reflexivity.
    exfalso.
    repeat match goal with
    | E : negb (_ =? _)%string = false |- _ =>
        apply negb_false_iff, String.eqb_eq in E; subst
    end.
    match goal with
    | E : Address_to_bech32 (RewardAddress_to_address ?r) = _ |- _ =>
        apply (Hreward r); congruence
    end.
Qed.

(** C9.  A base address whose stake credential is not a key hash does not
    end the check.  The base path throws (inside [network_id], or else at
    [from_keyhash], which refuses [undefined]), its [catch] logs the
    message, and [verifyAddress] continues exactly as its reward path
    does, whose first call is [publicKeyCose.hash()]. *)
Theorem script_stake_falls_through
    (address : string) (addressCose checkAddress : Address)
    (publicKeyCose : PublicKey) (baseAddress : BaseAddress)
    (bech32 : string) :
  Address_from_bytes (Buffer_from_hex address) = inr checkAddress ->
  Address_to_bech32 addressCose = inr bech32 ->
  Address_to_bech32 checkAddress = inr bech32 ->
  BaseAddress_from_address addressCose = Some baseAddress ->
  StakeCredential_to_keyhash (BaseAddress_stake_cred baseAddress) = None ->
  let run := verifyAddress address addressCose publicKeyCose in
  let reward := verifyAddress_from_reward checkAddress publicKeyCose in
  exists before msg rest,
    trace run
    = before
        ++ [Log ("---> The address is not base address, error: " ++ msg)]
        ++ trace reward
    /\ (forall line, ~ In (Log line) before)
    /\ msg = match Address_network_id checkAddress with
             | inl m => m
             | inr _ => "expected instance of Ed25519KeyHash"
             end
    /\ trace reward = Invoke P_PublicKey_hash :: rest
    /\ value run = value reward.
Proof.
  intros Hdec Hcose Hcheck Hbase Hstake run reward. subst run reward.
  unfold verifyAddress, verifyAddress_from_reward, verifyAddress_try,
    verifyAddress_base.
  rewrite Hdec. cbn [bind call call_pure try_catch]. rewrite Hcose.
  cbn [bind call call_pure try_catch]. rewrite Hcheck.
  cbn [bind call call_pure try_catch app]. rewrite String.eqb_refl.
  cbn [negb]. rewrite Hbase.
  cbn [bind call call_pure try_catch receiver ret app].
  rewrite Hstake.
  destruct (verifyAddress_reward_try_run checkAddress publicKeyCose)
    as (rest & c & R).
  rewrite R.
  destruct (Address_network_id checkAddress) as [m|n] eqn:Hnet.
  - exists [Invoke P_Address_from_bytes; Invoke P_Address_to_bech32;
            Invoke P_Address_to_bech32; Invoke P_BaseAddress_from_address;
            Invoke P_PublicKey_hash; Invoke P_BaseAddress_stake_cred;
            Invoke P_StakeCredential_to_keyhash; Invoke P_Address_network_id],
           m, rest.
    cbn -[String.append]. rewrite app_nil_r.
    repeat split; try reflexivity. intuition discriminate.
  - exists [Invoke P_Address_from_bytes; Invoke P_Address_to_bech32;
            Invoke P_Address_to_bech32; Invoke P_BaseAddress_from_address;
            Invoke P_PublicKey_hash; Invoke P_BaseAddress_stake_cred;
            Invoke P_StakeCredential_to_keyhash; Invoke P_Address_network_id;
            Invoke P_StakeCredential_from_keyhash],
           "expected instance of Ed25519KeyHash", rest.
    cbn -[String.append]. rewrite app_nil_r.
    repeat split; try reflexivity. intuition discriminate.
Qed.

(** *** The whole verification *)

Lemma embedded_address_no_verify (coseSign1 : COSESign1) :
  ~ In (Invoke P_PublicKey_verify) (trace (embedded_address coseSign1)).
Proof.
  unfold embedded_address. unfold_js.
  repeat (next_result; cbn); intuition discriminate.
Qed.

Lemma embedded_public_key_no_verify (coseKeyHex : string) :
  ~ In (Invoke P_PublicKey_verify) (trace (embedded_public_key coseKeyHex)).
Proof.
  unfold embedded_public_key. unfold_js.
  repeat (next_result; cbn); intuition discriminate.
Qed.

(** The signature check either throws from a decoder before
    [PublicKey.verify] is called, or calls it last and returns its
    result. *)
Lemma verify_signature_run (coseSign1 : COSESign1) (publicKeyCose : PublicKey) :
  (exists t e,
     verify_signature coseSign1 publicKeyCose = (t, inl e)
     /\ ~ In (Invoke P_PublicKey_verify) t)
  \/ (exists signature sig_structure,
        Ed25519Signature_from_bytes (COSESign1_signature coseSign1)
        = inr signature
        /\ COSESign1_signed_data coseSign1 = inr sig_structure
        /\ verify_signature coseSign1 publicKeyCose
           = ([Invoke P_COSESign1_signature;
               Invoke P_Ed25519Signature_from_bytes;
               Invoke P_COSESign1_signed_data;
               Invoke P_SigStructure_to_bytes; Invoke P_PublicKey_verify],
              inr (PublicKey_verify publicKeyCose
                     (SigStructure_to_bytes sig_structure) signature))).
Proof.
  unfold verify_signature. unfold_js.
  destruct (Ed25519Signature_from_bytes (COSESign1_signature coseSign1))
    as [m|signature]; cbn.
  - left. eexists _, _. split; [reflexivity|]. cbn. intuition discriminate.
  - destruct (COSESign1_signed_data coseSign1) as [m|sig_structure]; cbn.
    + left. eexists _, _. split; [reflexivity|]. cbn. intuition discriminate.
    + right. eexists _, _. repeat split; reflexivity.
Qed.

Lemma not_in_app (A : Type) (x : A) (l l' : list A) :
  ~ In x l -> ~ In x l' -> ~ In x (l ++ l').
Proof. intros H H' I. apply in_app_or in I. tauto. Qed.

(** C1.  Order of the checks and origin of the verdict.  If a run of
    [verifySignedMessage] calls [PublicKey.verify], or returns a boolean at
    all, then the envelope decoded and carried a payload, [verifyPayload]
    answered 0 on it, [verifyAddress] returned true on the embedded address
    and key, the call of [PublicKey.verify] is the last event of the run
    and the only one of its kind, the events of [verifyAddress] come before
    it, and the boolean returned is the result of that call.  So a failed
    payload or address check never yields a boolean: the run can only end
    in a throw. *)
Theorem verdict_is_signature_check
    (address payload coseSign1Hex coseKeyHex : string) :
  let run := verifySignedMessage address payload coseSign1Hex coseKeyHex in
  (In (Invoke P_PublicKey_verify) (trace run) \/ exists b, value run = inr b) ->
  exists coseSign1 payloadCose addressCose publicKeyCose signature
         sig_structure before after,
    COSESign1_from_bytes (Buffer_from_hex coseSign1Hex) = inr coseSign1
    /\ COSESign1_payload coseSign1 = Some payloadCose
    /\ value (verifyPayload payload (Some payloadCose)) = inr 0%Z
    /\ value (embedded_address coseSign1) = inr addressCose
    /\ value (embedded_public_key coseKeyHex) = inr publicKeyCose
    /\ value (verifyAddress address addressCose publicKeyCose) = inr true
    /\ Ed25519Signature_from_bytes (COSESign1_signature coseSign1)
       = inr signature
    /\ COSESign1_signed_data coseSign1 = inr sig_structure
    /\ trace run
       = before
           ++ trace (verifyAddress address addressCose publicKeyCose)
           ++ after ++ [Invoke P_PublicKey_verify]
    /\ ~ In (Invoke P_PublicKey_verify)
           (before
              ++ trace (verifyAddress address addressCose publicKeyCose)
              ++ after)
    /\ value run
       = inr (PublicKey_verify publicKeyCose
                (SigStructure_to_bytes sig_structure) signature).
Proof.
  intros run. subst run. unfold verifySignedMessage.
  destruct (COSESign1_from_bytes (Buffer_from_hex coseSign1Hex))
    as [?|coseSign1] eqn:Hdec;
    [cbn; intros [[?|[]]|[? ?]]; discriminate|].
  cbn [bind call call_pure].
  destruct (COSESign1_payload coseSign1) as [payloadCose|] eqn:Hpay;
    [|cbn; intros [[?|[?|[]]]|[? ?]]; discriminate].
  rewrite verifyPayload_run. cbn [bind app].
  destruct (truthy (Buffer_compare payloadCose (Buffer_from_hex payload)))
    eqn:Hcmp; [cbn; intros [[?|[?|[]]]|[? ?]]; discriminate|].
  assert (Buffer_compare payloadCose (Buffer_from_hex payload) = 0%Z) as Hzero
    by (apply truthy_compare in Hcmp; subst; apply Buffer_compare_refl).
  unfold after_payload_check.
  pose proof (embedded_address_no_verify coseSign1) as N1.
  destruct (embedded_address coseSign1) as [t1 [e1|addressCose]] eqn:EA;
    cbn [trace fst] in N1;
    [cbn; intros [[?|[?|?]]|[? ?]]; solve [discriminate | tauto]|].
  cbn [bind].
  pose proof (embedded_public_key_no_verify coseKeyHex) as N2.
  destruct (embedded_public_key coseKeyHex) as [t2 [e2|publicKeyCose]] eqn:EP;
    cbn [trace fst] in N2.
  { cbn. intros [[?|[?|I]]|[? ?]]; try discriminate.
    apply in_app_or in I. tauto. }
  cbn [bind].
  pose proof (verifyAddress_no_verify address addressCose publicKeyCose) as N3.
  destruct (verifyAddress_returns address addressCose publicKeyCose)
    as [ok Hok].
  destruct (verifyAddress address addressCose publicKeyCose)
    as [t3 [e3|ok']] eqn:VA; cbn [trace value fst snd] in N3, Hok;
    [discriminate|].
  injection Hok as ->. cbn [bind].
  destruct ok; cbn [negb throw].
  2:{ cbn. rewrite app_nil_r. intros [[?|[?|I]]|[? ?]]; try discriminate.
      apply in_app_or in I. destruct I as [I|I]; [tauto|].
      apply in_app_or in I. tauto. }
  destruct (verify_signature_run coseSign1 publicKeyCose)
    as [(t4 & e4 & VS & N4)|(signature & sig_structure & Hsig & Hsd & VS)];
    rewrite VS.
  { cbn. intros [[?|[?|I]]|[? ?]]; try discriminate.
    apply in_app_or in I. destruct I as [I|I]; [tauto|].
    apply in_app_or in I. destruct I as [I|I]; [tauto|].
    apply in_app_or in I. tauto. }
  intros _.
  exists coseSign1, payloadCose, addressCose, publicKeyCose, signature,
    sig_structure,
    ([Invoke P_COSESign1_from_bytes; Invoke P_COSESign1_payload] ++ t1 ++ t2),
    [Invoke P_COSESign1_signature; Invoke P_Ed25519Signature_from_bytes;
     Invoke P_COSESign1_signed_data; Invoke P_SigStructure_to_bytes].
  rewrite verifyPayload_run, Hzero, ?EA, ?EP, ?VA.
  cbn [trace value fst snd].
  repeat split; try reflexivity; try assumption.
  - cbn [app]. rewrite <- !app_assoc. reflexivity.
  - repeat apply not_in_app; try assumption; cbn; intuition discriminate.
Qed.

Lemma embedded_address_throws (coseSign1 : COSESign1) (e : JsThrown) :
  value (embedded_address coseSign1) = inl e ->
  (exists msg, e = LibThrown msg) \/ (exists msg, e = TypeError msg).
Proof.
  unfold embedded_address. unfold_js.
  repeat (next_result; cbn); intros E; inversion E; eauto.
Qed.

Lemma embedded_public_key_throws (coseKeyHex : string) (e : JsThrown) :
  value (embedded_public_key coseKeyHex) = inl e ->
  (exists msg, e = LibThrown msg) \/ (exists msg, e = TypeError msg).
Proof.
  unfold embedded_public_key. unfold_js.
  repeat (next_result; cbn); intros E; inversion E; eauto.
Qed.

(** C8, as the code has it.  There is no separate kind of error for
    malformed input.  A failure to decode the envelope, the embedded
    address or the key material leaves [verifySignedMessage] as the very
    value the decoder (or the runtime, for a missing header) threw: never a
    boolean, and never an [Error] made by this file, so neither 'Payload
    mismatch' nor 'Address mismatch'.  A claimed address that fails to
    decode is different: [verifyAddress] catches the decoder's error and
    returns false, and [verifySignedMessage] throws
    [Error('Address mismatch')]. *)
Theorem decoding_failures_at_the_boundary
    (address payload coseSign1Hex coseKeyHex : string) :
  let run := verifySignedMessage address payload coseSign1Hex coseKeyHex in
  (forall msg,
     COSESign1_from_bytes (Buffer_from_hex coseSign1Hex) = inl msg ->
     run = ([Invoke P_COSESign1_from_bytes], inl (LibThrown msg)))
  /\ (forall coseSign1,
        COSESign1_from_bytes (Buffer_from_hex coseSign1Hex) = inr coseSign1 ->
        COSESign1_payload coseSign1 = Some (Buffer_from_hex payload) ->
        (forall e,
           value (embedded_address coseSign1) = inl e ->
           value run = inl e /\ forall msg, e <> ErrorObj msg)
        /\ (forall addressCose e,
              value (embedded_address coseSign1) = inr addressCose ->
              value (embedded_public_key coseKeyHex) = inl e ->
              value run = inl e /\ forall msg, e <> ErrorObj msg)
        /\ (forall addressCose msg,
              value (embedded_address coseSign1) = inr addressCose ->
              COSEKey_from_bytes (Buffer_from_hex coseKeyHex) = inl msg ->
              value run = inl (LibThrown msg))
        /\ (forall addressCose publicKeyCose msg,
              value (embedded_address coseSign1) = inr addressCose ->
              value (embedded_public_key coseKeyHex) = inr publicKeyCose ->
              Address_from_bytes (Buffer_from_hex address) = inl msg ->
              value run = inl (ErrorObj "Address mismatch"))).
Proof.
  intros run. subst run. split.
  - intros msg Hdec. unfold verifySignedMessage. rewrite Hdec. reflexivity.
  - intros coseSign1 Hdec Hpay.
    rewrite (payload_check_passes address payload coseSign1Hex coseKeyHex
               Hdec Hpay).
    cbn [value snd]. unfold after_payload_check.
    split; [|split; [|split]].
    + intros e EA. split.
      * destruct (embedded_address coseSign1) as [t [e'|a]];
          cbn in *; congruence.
      * intros msg ->.
        destruct (embedded_address_throws coseSign1 EA) as [[m E]|[m E]];
          discriminate.
    + intros addressCose e EA EP. split.
      * destruct (embedded_address coseSign1) as [t [e'|a]];
          destruct (embedded_public_key coseKeyHex) as [t' [e''|pk]];
          cbn in *; congruence.
      * intros msg ->.
        destruct (embedded_public_key_throws coseKeyHex EP) as [[m E]|[m E]];
          discriminate.
    + intros addressCose msg EA Hkey.
      destruct (embedded_address coseSign1) as [t [e'|a]];
        cbn in EA; [discriminate|].
      unfold embedded_public_key. rewrite Hkey. reflexivity.
    + intros addressCose publicKeyCose msg EA EP Haddr.
      destruct (embedded_address coseSign1) as [t [e'|a]];
        cbn in EA; [discriminate|]. injection EA as ->.
      destruct (embedded_public_key coseKeyHex) as [t' [e''|pk]];
        cbn in EP; [discriminate|]. injection EP as ->.
      cbn [bind].
      unfold verifyAddress, verifyAddress_try. rewrite Haddr. reflexivity.
Qed.

End Properties.

(* ===================================================================== *)
(** ** Runs on the stand-in packages *)
(* ===================================================================== *)

#[local] Existing Instance Fixture.serialization.
#[local] Existing Instance Fixture.message_signing.

Lemma fixture_address_laws : AddressLaws Fixture.serialization.
Proof.
  constructor; cbn; intros; try reflexivity; eexists; reflexivity.
Qed.

(** The end-to-end scenario: the sample key signs "nonce-123" for its base
    address on network 0, and the run returns true after the signature
    check. *)
Lemma verdict_is_signature_check_witness :
  let run := verifySignedMessage
               (Fixture.hex_of_address Fixture.sample_base)
               Fixture.sample_payload_hex
               (Fixture.sample_envelope_hex Fixture.sample_base)
               (Fixture.key_hex Fixture.sample_key) in
  value run = inr true
  /\ exists before, trace run = before ++ [Invoke P_PublicKey_verify].
Proof.
  intros run.
  assert (value run = inr true) as V by (vm_compute; reflexivity).
  split; [exact V|].
  destruct (verdict_is_signature_check (S := Fixture.serialization)
                    (MS := Fixture.message_signing)
              (Fixture.hex_of_address Fixture.sample_base)
              Fixture.sample_payload_hex
              (Fixture.sample_envelope_hex Fixture.sample_base)
              (Fixture.key_hex Fixture.sample_key)
              (or_intror (ex_intro _ true V)))
    as (c & p & a & k & sg & sd & before & after & W).
  exists (before ++ trace (verifyAddress
                             (Fixture.hex_of_address Fixture.sample_base) a k)
            ++ after).
  destruct W as (_ & _ & _ & _ & _ & _ & _ & _ & T & _).
  fold run in T. rewrite T. now rewrite <- !app_assoc.
Defined.

(** The payload argument "nonce-124" against an envelope for "nonce-123",
    and the matching payload. *)
Lemma payload_exactness_witness :
  verifySignedMessage (Fixture.hex_of_address Fixture.sample_base)
    "6e6f6e63652d313234"
    (Fixture.sample_envelope_hex Fixture.sample_base)
    (Fixture.key_hex Fixture.sample_key)
  = ([Invoke P_COSESign1_from_bytes; Invoke P_COSESign1_payload],
     inl (ErrorObj "Payload mismatch"))
  /\ verifyPayload Fixture.sample_payload_hex
       (Some (Buffer_from_hex Fixture.sample_payload_hex))
     = ([], inr 0%Z).
Proof.
  split.
  - apply (proj2 (payload_exactness (S := Fixture.serialization)
                    (MS := Fixture.message_signing)
                    (Fixture.hex_of_address Fixture.sample_base)
                    "6e6f6e63652d313234"
                    (Fixture.sample_envelope_hex Fixture.sample_base)
                    (Fixture.key_hex Fixture.sample_key)
                    (coseSign1 := Fixture.sample_envelope Fixture.sample_base)
                    (payloadCose := Buffer_from_hex Fixture.sample_payload_hex)
                    ltac:(vm_compute; reflexivity)
                    ltac:(vm_compute; reflexivity))).
    vm_compute. discriminate.
  - apply (proj1 (payload_exactness (S := Fixture.serialization)
                    (MS := Fixture.message_signing)
                    (Fixture.hex_of_address Fixture.sample_base)
                    Fixture.sample_payload_hex
                    (Fixture.sample_envelope_hex Fixture.sample_base)
                    (Fixture.key_hex Fixture.sample_key)
                    (coseSign1 := Fixture.sample_envelope Fixture.sample_base)
                    (payloadCose := Buffer_from_hex Fixture.sample_payload_hex)
                    ltac:(vm_compute; reflexivity)
                    ltac:(vm_compute; reflexivity))).
    reflexivity.
Defined.

(** The embedded address is the base address of the sample key, which the
    key does rebuild; the claimed address is its reward address. *)
Lemma claimed_embedded_divergence_witness :
  verifyAddress (Fixture.hex_of_address Fixture.sample_reward)
    Fixture.sample_base Fixture.sample_key
  = ([Invoke P_Address_from_bytes; Invoke P_Address_to_bech32;
      Invoke P_Address_to_bech32], inr false)
  /\ value (verifyAddress (Fixture.hex_of_address Fixture.sample_base)
              Fixture.sample_base Fixture.sample_key) = inr true.
Proof.
  split; [|vm_compute; reflexivity].
  eapply (claimed_embedded_divergence (S := Fixture.serialization)
            (Fixture.hex_of_address Fixture.sample_reward)
            Fixture.sample_base (checkAddress := Fixture.sample_reward)
            Fixture.sample_key).
  - vm_compute. reflexivity.
  - reflexivity.
  - reflexivity.
  - vm_compute. discriminate.
Defined.

Lemma base_address_roundtrip_witness :
  value (verifyAddress (Fixture.hex_of_address Fixture.sample_base)
           Fixture.sample_base Fixture.sample_key) = inr true.
Proof.
  exact (f_equal snd
           (base_address_roundtrip fixture_address_laws
              (Fixture.hex_of_address Fixture.sample_base)
              Fixture.sample_key 0%N Fixture.sample_stake_hash
              ltac:(vm_compute; reflexivity))).
Defined.

Lemma reward_address_roundtrip_witness :
  value (verifyAddress (Fixture.hex_of_address Fixture.sample_reward)
           Fixture.sample_reward Fixture.sample_key) = inr true.
Proof.
  exact (f_equal snd
           (reward_address_roundtrip fixture_address_laws
              (Fixture.hex_of_address Fixture.sample_reward)
              Fixture.sample_key 1%N
              ltac:(vm_compute; reflexivity))).
Defined.

(** The base address of the sample key, checked against another key. *)
Lemma base_mismatch_no_fallback_witness :
  let run := verifyAddress (Fixture.hex_of_address Fixture.sample_base)
               Fixture.sample_base Fixture.other_key in
  value run = inr false
  /\ ~ In (Invoke P_RewardAddress_new) (trace run).
Proof.
  intros run.
  destruct (base_mismatch_no_fallback (S := Fixture.serialization)
              (Fixture.hex_of_address Fixture.sample_base)
              Fixture.sample_base
              (checkAddress := Fixture.sample_base)
              Fixture.other_key
              (baseAddress :=
                 {| Fixture.base_network := 0;
                    Fixture.base_payment :=
                      Fixture.KeyCred (Fixture.key_hash Fixture.sample_key);
                    Fixture.base_stake :=
                      Fixture.KeyCred Fixture.sample_stake_hash |})
              (stakeKeyHash := Fixture.sample_stake_hash)
              (network := 0%N)
              ltac:(vm_compute; reflexivity)
              ltac:(reflexivity)
              ltac:(reflexivity)
              ltac:(reflexivity)
              ltac:(reflexivity)
              ltac:(reflexivity)
              ltac:(reflexivity)
              ltac:(vm_compute; discriminate))
    as (R & NR & _).
  fold run in R, NR. split; [now rewrite R | exact NR].
Defined.

(** A claimed address that is not hexadecimal, and an enterprise
    address. *)
Lemma verifyAddress_total_witness :
  verifyAddress "zz" Fixture.sample_base Fixture.sample_key
  = ([Invoke P_Address_from_bytes;
      Log "---> Could not verify address, error: address: no header byte"],
     inr false)
  /\ value (verifyAddress (Fixture.hex_of_address Fixture.sample_enterprise)
              Fixture.sample_enterprise Fixture.sample_key) = inr false.
Proof.
  split.
  - apply (proj1 (proj2 (verifyAddress_total (S := Fixture.serialization)
                           "zz" Fixture.sample_base
                           Fixture.sample_key))
             "address: no header byte").
    reflexivity.
  - apply (proj2 (proj2 (verifyAddress_total (S := Fixture.serialization)
                           (Fixture.hex_of_address Fixture.sample_enterprise)
                           Fixture.sample_enterprise Fixture.sample_key))
             Fixture.sample_enterprise).
    + vm_compute. reflexivity.
    + reflexivity.
    + intros r. vm_compute. discriminate.
Defined.

(** A base address with a script as stake part. *)
Lemma script_stake_falls_through_witness :
  let run := verifyAddress (Fixture.hex_of_address Fixture.sample_base_script)
               Fixture.sample_base_script Fixture.sample_key in
  exists before rest,
    trace run
    = before
        ++ [Log "---> The address is not base address, error: expected instance of Ed25519KeyHash"]
        ++ Invoke P_PublicKey_hash :: rest.
Proof.
  intros run.
  destruct (script_stake_falls_through (S := Fixture.serialization)
              (Fixture.hex_of_address Fixture.sample_base_script)
              Fixture.sample_base_script
              (checkAddress := Fixture.sample_base_script)
              Fixture.sample_key
              (baseAddress :=
                 {| Fixture.base_network := 0;
                    Fixture.base_payment :=
                      Fixture.KeyCred (Fixture.key_hash Fixture.sample_key);
                    Fixture.base_stake :=
                      Fixture.ScriptCred Fixture.sample_script_hash |})
              ltac:(vm_compute; reflexivity)
              ltac:(reflexivity)
              ltac:(reflexivity)
              ltac:(reflexivity)
              ltac:(reflexivity))
    as (before & msg & rest & T & _ & Hmsg & R & _).
  fold run in T. exists before, rest.
  rewrite T, R, Hmsg. reflexivity.
Defined.

(** An envelope without a payload. *)
Lemma missing_payload_throws_type_error_witness :
  exists msg,
    verifySignedMessage (Fixture.hex_of_address Fixture.sample_base)
      Fixture.sample_payload_hex
      (Fixture.detached_envelope_hex Fixture.sample_base Fixture.sample_key)
      (Fixture.key_hex Fixture.sample_key)
    = ([Invoke P_COSESign1_from_bytes; Invoke P_COSESign1_payload],
       inl (TypeError msg)).
Proof.
  apply (proj1 (missing_payload_throws_type_error (S := Fixture.serialization)
                    (MS := Fixture.message_signing)
                  (Fixture.hex_of_address Fixture.sample_base)
                  Fixture.sample_payload_hex
                  (Fixture.detached_envelope_hex Fixture.sample_base
                     Fixture.sample_key)
                  (Fixture.key_hex Fixture.sample_key)
                  (coseSign1 :=
                     {| Fixture.cs_protected :=
                          [(Fixture.LText "address",
                            Fixture.CBytes
                              (Fixture.address_to_bytes Fixture.sample_base))];
                        Fixture.cs_payload := None;
                        Fixture.cs_signature :=
                          Fixture.sign Fixture.sample_key
                            (Fixture.address_to_bytes Fixture.sample_base) |})
                  ltac:(vm_compute; reflexivity)
                  ltac:(reflexivity))).
Defined.

(** C8 as stated fails: the claimed address "zz" does not decode, every
    other input is well formed, and the run ends in the address-mismatch
    error, not in an error of its own kind. *)
Lemma claimed_address_decoding_reported_as_mismatch :
  Address_from_bytes (Buffer_from_hex "zz") = inl "address: no header byte"
  /\ verifySignedMessage "zz" Fixture.sample_payload_hex
       (Fixture.sample_envelope_hex Fixture.sample_base)
       (Fixture.key_hex Fixture.sample_key)
     = ([Invoke P_COSESign1_from_bytes; Invoke P_COSESign1_payload;
         Invoke P_COSESign1_headers; Invoke P_Headers_protected;
         Invoke P_deserialized_headers; Invoke P_Label_new_text;
         Invoke P_HeaderMap_header; Invoke P_CBORValue_as_bytes;
         Invoke P_Address_from_bytes; Invoke P_COSEKey_from_bytes;
         Invoke P_BigNum_from_str; Invoke P_Int_new_negative;
         Invoke P_Label_new_int; Invoke P_COSEKey_header;
         Invoke P_CBORValue_as_bytes; Invoke P_PublicKey_from_bytes;
         Invoke P_Address_from_bytes;
         Log "---> Could not verify address, error: address: no header byte"],
        inl (ErrorObj "Address mismatch")).
Proof. split; vm_compute; reflexivity. Qed.

(** A truncated envelope, a truncated key, and the claimed address "zz". *)
Lemma decoding_failures_at_the_boundary_witness :
  verifySignedMessage (Fixture.hex_of_address Fixture.sample_base)
    Fixture.sample_payload_hex "01" (Fixture.key_hex Fixture.sample_key)
  = ([Invoke P_COSESign1_from_bytes],
     inl (LibThrown "envelope: truncated address header"))
  /\ value (verifySignedMessage (Fixture.hex_of_address Fixture.sample_base)
              Fixture.sample_payload_hex
              (Fixture.sample_envelope_hex Fixture.sample_base) "0205")
     = inl (LibThrown "key: truncated entry")
  /\ value (verifySignedMessage "zz" Fixture.sample_payload_hex
              (Fixture.sample_envelope_hex Fixture.sample_base)
              (Fixture.key_hex Fixture.sample_key))
     = inl (ErrorObj "Address mismatch").
Proof.
  split; [|split].
  - apply (proj1 (decoding_failures_at_the_boundary (S := Fixture.serialization)
                    (MS := Fixture.message_signing)
                    (Fixture.hex_of_address Fixture.sample_base)
                    Fixture.sample_payload_hex "01"
                    (Fixture.key_hex Fixture.sample_key))).
    reflexivity.
  - apply (proj1 (proj2 (proj2
             (proj2 (decoding_failures_at_the_boundary (S := Fixture.serialization)
                    (MS := Fixture.message_signing)
                       (Fixture.hex_of_address Fixture.sample_base)
                       Fixture.sample_payload_hex
                       (Fixture.sample_envelope_hex Fixture.sample_base)
                       "0205")
                (Fixture.sample_envelope Fixture.sample_base)
                ltac:(vm_compute; reflexivity)
                ltac:(reflexivity))))
             Fixture.sample_base).
    + vm_compute. reflexivity.
    + reflexivity.
  - apply (proj2 (proj2 (proj2
             (proj2 (decoding_failures_at_the_boundary (S := Fixture.serialization)
                    (MS := Fixture.message_signing)
                       "zz" Fixture.sample_payload_hex
                       (Fixture.sample_envelope_hex Fixture.sample_base)
                       (Fixture.key_hex Fixture.sample_key))
                (Fixture.sample_envelope Fixture.sample_base)
                ltac:(vm_compute; reflexivity)
                ltac:(reflexivity))))
             Fixture.sample_base Fixture.sample_key "address: no header byte").
    + vm_compute. reflexivity.
    + vm_compute. reflexivity.
    + reflexivity.
Defined.

(* ===================================================================== *)
(** ** Further properties of the address check *)
(* ===================================================================== *)

Section AddressCheck.

Context {S : SerializationLib}.

Ltac eqb_facts :=
  repeat match goal with
  | E : negb (String.eqb _ _) = false |- _ =>
      apply negb_false_iff, String.eqb_eq in E; subst
  | E : negb (String.eqb _ _) = true |- _ => clear E
  end.

(** X1.  What a positive answer of [verifyAddress] means.  If it returns
    true, then the claimed address decoded, it has the same bech32 form as
    the embedded address, its network could be read, and an address rebuilt
    from that network and the hash of the public key has that same bech32
    form: either a base address with the key hash as payment credential and
    the key-hash stake credential of the embedded base address, or a reward
    address with the key hash as stake credential. *)
Theorem verifyAddress_true_inv
    (address : string) (addressCose : Address) (publicKeyCose : PublicKey) :
  value (verifyAddress address addressCose publicKeyCose) = inr true ->
  exists checkAddress bech32 network,
    Address_from_bytes (Buffer_from_hex address) = inr checkAddress
    /\ Address_to_bech32 addressCose = inr bech32
    /\ Address_to_bech32 checkAddress = inr bech32
    /\ Address_network_id checkAddress = inr network
    /\ ((exists baseAddress stakeKeyHash,
           BaseAddress_from_address addressCose = Some baseAddress
           /\ StakeCredential_to_keyhash (BaseAddress_stake_cred baseAddress)
              = Some stakeKeyHash
           /\ Address_to_bech32
                (BaseAddress_to_address
                   (BaseAddress_new network
                      (StakeCredential_from_keyhash
                         (PublicKey_hash publicKeyCose))
                      (StakeCredential_from_keyhash stakeKeyHash)))
              = inr bech32)
        \/ Address_to_bech32
             (RewardAddress_to_address
                (RewardAddress_new network
                   (StakeCredential_from_keyhash
                      (PublicKey_hash publicKeyCose))))
           = inr bech32).
Proof.
  unfold verifyAddress, verifyAddress_try, verifyAddress_reward_try,
    verifyAddress_base, verifyAddress_reward.
  unfold_js.
  repeat (next_result; cbn); intros E; try discriminate; eqb_facts;
    eexists _, _, _; (repeat split; try eassumption; try reflexivity);
    solve [ left; eexists _, _; repeat split; eassumption
          | right; eassumption ].
Qed.

(** X2.  The verdict of the base path.  When the embedded address is a
    base address with a key-hash stake credential and the base address is
    rebuilt, [verifyAddress] answers whether the rebuilt address and the
    claimed one have the same bech32 form, and the reward path is not
    entered either way. *)
Theorem base_path_verdict
    (address : string) (addressCose checkAddress : Address)
    (publicKeyCose : PublicKey) (baseAddress : BaseAddress)
    (stakeKeyHash : Ed25519KeyHash) (network : N)
    (bech32 reconstructed_bech32 : string) :
  Address_from_bytes (Buffer_from_hex address) = inr checkAddress ->
  Address_to_bech32 addressCose = inr bech32 ->
  Address_to_bech32 checkAddress = inr bech32 ->
  BaseAddress_from_address addressCose = Some baseAddress ->
  StakeCredential_to_keyhash (BaseAddress_stake_cred baseAddress)
  = Some stakeKeyHash ->
  Address_network_id checkAddress = inr network ->
  Address_to_bech32
    (BaseAddress_to_address
       (BaseAddress_new network
          (StakeCredential_from_keyhash (PublicKey_hash publicKeyCose))
          (StakeCredential_from_keyhash stakeKeyHash)))
  = inr reconstructed_bech32 ->
  verifyAddress address addressCose publicKeyCose
  = ([Invoke P_Address_from_bytes; Invoke P_Address_to_bech32;
      Invoke P_Address_to_bech32; Invoke P_BaseAddress_from_address;
      Invoke P_PublicKey_hash; Invoke P_BaseAddress_stake_cred;
      Invoke P_StakeCredential_to_keyhash; Invoke P_Address_network_id;
      Invoke P_StakeCredential_from_keyhash;
      Invoke P_StakeCredential_from_keyhash; Invoke P_BaseAddress_new;
      Invoke P_Address_to_bech32; Invoke P_BaseAddress_to_address;
      Invoke P_Address_to_bech32],
     inr (String.eqb bech32 reconstructed_bech32)).
Proof.
  intros Hdec Hcose Hcheck Hbase Hstake Hnet Hrec.
  unfold verifyAddress, verifyAddress_try, verifyAddress_base.
  rewrite Hdec. cbn [bind call call_pure try_catch]. rewrite Hcose.
  cbn [bind call call_pure try_catch]. rewrite Hcheck.
  cbn [bind call call_pure try_catch app]. rewrite String.eqb_refl.
  cbn [negb]. rewrite Hbase.
  cbn [bind call call_pure try_catch receiver ret app].
  rewrite Hstake, Hnet.
  cbn [bind call call_pure try_catch instance_argument ret app].
  rewrite Hrec.
  cbn [bind call call_pure try_catch app].
  now destruct (String.eqb bech32 reconstructed_bech32).
Qed.

(** X3.  The verdict of the reward path.  When the embedded address is not
    a base address, the base path ends in a [TypeError] that is logged;
    then, if the network of the claimed address can be read and the reward
    address of the public key has a bech32 form, [verifyAddress] answers
    whether that form is the one of the claimed address. *)
Theorem reward_path_verdict
    (address : string) (addressCose checkAddress : Address)
    (publicKeyCose : PublicKey) (network : N)
    (bech32 reconstructed_bech32 : string) :
  Address_from_bytes (Buffer_from_hex address) = inr checkAddress ->
  Address_to_bech32 addressCose = inr bech32 ->
  Address_to_bech32 checkAddress = inr bech32 ->
  BaseAddress_from_address addressCose = None ->
  Address_network_id checkAddress = inr network ->
  Address_to_bech32
    (RewardAddress_to_address
       (RewardAddress_new network
          (StakeCredential_from_keyhash (PublicKey_hash publicKeyCose))))
  = inr reconstructed_bech32 ->
  verifyAddress address addressCose publicKeyCose
  = ([Invoke P_Address_from_bytes; Invoke P_Address_to_bech32;
      Invoke P_Address_to_bech32; Invoke P_BaseAddress_from_address;
      Invoke P_PublicKey_hash;
      Log "---> The address is not base address, error: Cannot read properties of undefined (reading 'stake_cred')";
      Invoke P_PublicKey_hash; Invoke P_Address_network_id;
      Invoke P_StakeCredential_from_keyhash; Invoke P_RewardAddress_new;
      Invoke P_Address_to_bech32; Invoke P_RewardAddress_to_address;
      Invoke P_Address_to_bech32],
     inr (String.eqb bech32 reconstructed_bech32)).
Proof.
  intros Hdec Hcose Hcheck Hbase Hnet Hrec.
  unfold verifyAddress, verifyAddress_try, verifyAddress_base,
    verifyAddress_reward_try, verifyAddress_reward.
  rewrite Hdec. cbn [bind call call_pure try_catch]. rewrite Hcose.
  cbn [bind call call_pure try_catch]. rewrite Hcheck.
  cbn [bind call call_pure try_catch app]. rewrite String.eqb_refl.
  cbn [negb]. rewrite Hbase.
  cbn [bind call call_pure try_catch receiver ret throw console_log app
         message].
  rewrite Hnet. cbn [bind call call_pure try_catch ret app].
  rewrite Hrec. cbn [bind call call_pure try_catch app].
  now destruct (String.eqb bech32 reconstructed_bech32).
Qed.


End AddressCheck.

(* ===================================================================== *)
(** ** Further properties of the whole verification *)
(* ===================================================================== *)

Section Verification.

Context {S : SerializationLib} {MS : MessageSigning}.

(** The run after the payload check, once the embedded address and key
    are read and [verifyAddress] has answered. *)
Lemma after_payload_check_run
    (address coseKeyHex : string) (coseSign1 : COSESign1)
    (addressCose : Address) (publicKeyCose : PublicKey) (ok : bool) :
  value (embedded_address coseSign1) = inr addressCose ->
  value (embedded_public_key coseKeyHex) = inr publicKeyCose ->
  value (verifyAddress address addressCose publicKeyCose) = inr ok ->
  after_payload_check address coseSign1 coseKeyHex
  = (trace (embedded_address coseSign1)
       ++ trace (embedded_public_key coseKeyHex)
       ++ trace (verifyAddress address addressCose publicKeyCose)
       ++ (if ok then trace (verify_signature coseSign1 publicKeyCose)
           else []),
     if ok then value (verify_signature coseSign1 publicKeyCose)
     else inl (ErrorObj "Address mismatch")).
Proof.
  intros EA EP VA. unfold after_payload_check.
  destruct (embedded_address coseSign1) as [t1 [e1|a]];
    cbn in EA; [discriminate|]. injection EA as ->.
  destruct (embedded_public_key coseKeyHex) as [t2 [e2|k]];
    cbn in EP; [discriminate|]. injection EP as ->.
  cbn [bind].
  destruct (verifyAddress address addressCose publicKeyCose) as [t3 [e3|b]];
    cbn in VA; [discriminate|]. injection VA as ->.
  cbn [bind trace value fst snd].
  destruct ok; cbn [negb throw].
  - destruct (verify_signature coseSign1 publicKeyCose) as [t4 r4].
    cbn [trace value fst snd]. now rewrite <- ?app_assoc.
  - now rewrite ?app_nil_r, <- ?app_assoc.
Qed.

(** X5.  A failed address check.  When the payload check passes, the
    embedded address and the key are read, and [verifyAddress] returns
    false, [verifySignedMessage] throws [Error('Address mismatch')] and the
    run ends with the events of [verifyAddress]: the signature is not
    even decoded. *)
Theorem address_mismatch_throws
    (address payload coseSign1Hex coseKeyHex : string)
    (coseSign1 : COSESign1) (addressCose : Address)
    (publicKeyCose : PublicKey) :
  COSESign1_from_bytes (Buffer_from_hex coseSign1Hex) = inr coseSign1 ->
  COSESign1_payload coseSign1 = Some (Buffer_from_hex payload) ->
  value (embedded_address coseSign1) = inr addressCose ->
  value (embedded_public_key coseKeyHex) = inr publicKeyCose ->
  value (verifyAddress address addressCose publicKeyCose) = inr false ->
  verifySignedMessage address payload coseSign1Hex coseKeyHex
  = ([Invoke P_COSESign1_from_bytes; Invoke P_COSESign1_payload]
       ++ trace (embedded_address coseSign1)
       ++ trace (embedded_public_key coseKeyHex)
       ++ trace (verifyAddress address addressCose publicKeyCose),
     inl (ErrorObj "Address mismatch")).
Proof.
  intros Hdec Hpay EA EP VA.
  rewrite (payload_check_passes address payload coseSign1Hex coseKeyHex
             Hdec Hpay).
  rewrite (after_payload_check_run address coseKeyHex coseSign1 EA EP VA).
  cbn [trace value fst snd]. now rewrite app_nil_r.
Qed.

(** X6.  An envelope without an ["address"] protected header.  When the
    payload check passes and the protected headers have no entry under the
    text label ["address"], [verifySignedMessage] throws the runtime's
    [TypeError] for calling [as_bytes] on [undefined]; the key material is
    never decoded. *)
Theorem missing_address_header_throws
    (address payload coseSign1Hex coseKeyHex : string)
    (coseSign1 : COSESign1) :
  COSESign1_from_bytes (Buffer_from_hex coseSign1Hex) = inr coseSign1 ->
  COSESign1_payload coseSign1 = Some (Buffer_from_hex payload) ->
  HeaderMap_header
    (deserialized_headers (Headers_protected (COSESign1_headers coseSign1)))
    (Label_new_text "address") = None ->
  verifySignedMessage address payload coseSign1Hex coseKeyHex
  = ([Invoke P_COSESign1_from_bytes; Invoke P_COSESign1_payload;
      Invoke P_COSESign1_headers; Invoke P_Headers_protected;
      Invoke P_deserialized_headers; Invoke P_Label_new_text;
      Invoke P_HeaderMap_header],
     inl (TypeError "Cannot read properties of undefined (reading 'as_bytes')")).
Proof.
  intros Hdec Hpay Hheader.
  rewrite (payload_check_passes address payload coseSign1Hex coseKeyHex
             Hdec Hpay).
  unfold after_payload_check, embedded_address.
  cbn [bind call_pure]. rewrite Hheader. reflexivity.
Qed.

(** X7.  A key structure without label -2.  When the payload check passes,
    the embedded address is read, the key structure decodes, and it has no
    entry under the integer label -2, [verifySignedMessage] throws the
    runtime's [TypeError] for calling [as_bytes] on [undefined];
    [verifyAddress] is not reached. *)
Theorem missing_public_key_label_throws
    (address payload coseSign1Hex coseKeyHex : string)
    (coseSign1 : COSESign1) (addressCose : Address) (coseKey : COSEKey)
    (two : BigNum) :
  COSESign1_from_bytes (Buffer_from_hex coseSign1Hex) = inr coseSign1 ->
  COSESign1_payload coseSign1 = Some (Buffer_from_hex payload) ->
  value (embedded_address coseSign1) = inr addressCose ->
  COSEKey_from_bytes (Buffer_from_hex coseKeyHex) = inr coseKey ->
  BigNum_from_str "2" = inr two ->
  COSEKey_header coseKey (Label_new_int (Int_new_negative two)) = None ->
  verifySignedMessage address payload coseSign1Hex coseKeyHex
  = ([Invoke P_COSESign1_from_bytes; Invoke P_COSESign1_payload]
       ++ trace (embedded_address coseSign1)
       ++ [Invoke P_COSEKey_from_bytes; Invoke P_BigNum_from_str;
           Invoke P_Int_new_negative; Invoke P_Label_new_int;
           Invoke P_COSEKey_header],
     inl (TypeError "Cannot read properties of undefined (reading 'as_bytes')")).
Proof.
  intros Hdec Hpay EA Hkey Htwo Hheader.
  rewrite (payload_check_passes address payload coseSign1Hex coseKeyHex
             Hdec Hpay).
  unfold after_payload_check.
  destruct (embedded_address coseSign1) as [t1 [e1|a]];
    cbn in EA; [discriminate|]. injection EA as ->.
  unfold embedded_public_key. rewrite Hkey.
  cbn [bind call call_pure]. rewrite Htwo.
  cbn [bind call call_pure]. rewrite Hheader. reflexivity.
Qed.

(** X8.  Signature bytes that do not decode.  When both checks have
    passed and [Ed25519Signature.from_bytes] throws on the signature of
    the envelope, [verifySignedMessage] throws that error; the signed data
    are not computed and [PublicKey.verify] is not called. *)
Theorem malformed_signature_throws
    (address payload coseSign1Hex coseKeyHex : string)
    (coseSign1 : COSESign1) (addressCose : Address)
    (publicKeyCose : PublicKey) (msg : string) :
  COSESign1_from_bytes (Buffer_from_hex coseSign1Hex) = inr coseSign1 ->
  COSESign1_payload coseSign1 = Some (Buffer_from_hex payload) ->
  value (embedded_address coseSign1) = inr addressCose ->
  value (embedded_public_key coseKeyHex) = inr publicKeyCose ->
  value (verifyAddress address addressCose publicKeyCose) = inr true ->
  Ed25519Signature_from_bytes (COSESign1_signature coseSign1) = inl msg ->
  verifySignedMessage address payload coseSign1Hex coseKeyHex
  = ([Invoke P_COSESign1_from_bytes; Invoke P_COSESign1_payload]
       ++ trace (embedded_address coseSign1)
       ++ trace (embedded_public_key coseKeyHex)
       ++ trace (verifyAddress address addressCose publicKeyCose)
       ++ [Invoke P_COSESign1_signature;
           Invoke P_Ed25519Signature_from_bytes],
     inl (LibThrown msg)).
Proof.
  intros Hdec Hpay EA EP VA Hsig.
  rewrite (payload_check_passes address payload coseSign1Hex coseKeyHex
             Hdec Hpay).
  rewrite (after_payload_check_run address coseKeyHex coseSign1 EA EP VA).
  unfold verify_signature. cbn [bind call call_pure]. rewrite Hsig.
  reflexivity.
Qed.

(** X9.  The verdict when everything decodes.  When both checks have
    passed, the signature decodes and the signed data are computed,
    [verifySignedMessage] returns what [PublicKey.verify] answers for the
    key of the key structure, the signed data of the envelope and its
    signature: true or false, without a throw. *)
Theorem checks_passed_verdict
    (address payload coseSign1Hex coseKeyHex : string)
    (coseSign1 : COSESign1) (addressCose : Address)
    (publicKeyCose : PublicKey) (signature : Ed25519Signature)
    (sig_structure : SigStructure) :
  COSESign1_from_bytes (Buffer_from_hex coseSign1Hex) = inr coseSign1 ->
  COSESign1_payload coseSign1 = Some (Buffer_from_hex payload) ->
  value (embedded_address coseSign1) = inr addressCose ->
  value (embedded_public_key coseKeyHex) = inr publicKeyCose ->
  value (verifyAddress address addressCose publicKeyCose) = inr true ->
  Ed25519Signature_from_bytes (COSESign1_signature coseSign1) = inr signature ->
  COSESign1_signed_data coseSign1 = inr sig_structure ->
  verifySignedMessage address payload coseSign1Hex coseKeyHex
  = ([Invoke P_COSESign1_from_bytes; Invoke P_COSESign1_payload]
       ++ trace (embedded_address coseSign1)
       ++ trace (embedded_public_key coseKeyHex)
       ++ trace (verifyAddress address addressCose publicKeyCose)
       ++ [Invoke P_COSESign1_signature;
           Invoke P_Ed25519Signature_from_bytes;
           Invoke P_COSESign1_signed_data; Invoke P_SigStructure_to_bytes;
           Invoke P_PublicKey_verify],
     inr (PublicKey_verify publicKeyCose
            (SigStructure_to_bytes sig_structure) signature)).
Proof.
  intros Hdec Hpay EA EP VA Hsig Hsd.
  rewrite (payload_check_passes address payload coseSign1Hex coseKeyHex
             Hdec Hpay).
  rewrite (after_payload_check_run address coseKeyHex coseSign1 EA EP VA).
  unfold verify_signature. cbn [bind call call_pure]. rewrite Hsig.
  cbn [bind call call_pure]. rewrite Hsd. reflexivity.
Qed.





(** The address check accepts an address rebuilt from the key. *)
Lemma verifyAddress_rebuilt (laws : AddressLaws S)
    (address : string) (publicKeyCose : PublicKey) (A : Address) :
  (exists network stakeKeyHash,
     A = BaseAddress_to_address
           (BaseAddress_new network
              (StakeCredential_from_keyhash (PublicKey_hash publicKeyCose))
              (StakeCredential_from_keyhash stakeKeyHash)))
  \/ (exists network,
        A = RewardAddress_to_address
              (RewardAddress_new network
                 (StakeCredential_from_keyhash
                    (PublicKey_hash publicKeyCose)))) ->
  Address_from_bytes (Buffer_from_hex address) = inr A ->
  value (verifyAddress address A publicKeyCose) = inr true.
Proof.
  intros [(network & stakeKeyHash & ->)|(network & ->)] Hdec.
  - destruct (to_bech32_base
                (BaseAddress_new network
                   (StakeCredential_from_keyhash (PublicKey_hash publicKeyCose))
                   (StakeCredential_from_keyhash stakeKeyHash))) as [s Hs].
    unfold verifyAddress, verifyAddress_try, verifyAddress_base.
    rewrite Hdec. cbn [bind call call_pure try_catch]. rewrite Hs.
    cbn [bind call call_pure try_catch app]. rewrite String.eqb_refl.
    cbn [negb]. rewrite from_address_base.
    cbn [bind call call_pure try_catch receiver ret app].
    rewrite stake_cred_new, to_keyhash_from_keyhash, network_id_base.
    cbn [bind call call_pure try_catch instance_argument ret app].
    rewrite Hs.
    cbn [bind call call_pure try_catch app]. rewrite String.eqb_refl.
    reflexivity.
  - destruct (to_bech32_reward
                (RewardAddress_new network
                   (StakeCredential_from_keyhash
                      (PublicKey_hash publicKeyCose)))) as [s Hs].
    unfold verifyAddress, verifyAddress_try, verifyAddress_base,
      verifyAddress_reward_try, verifyAddress_reward.
    rewrite Hdec. cbn [bind call call_pure try_catch]. rewrite Hs.
    cbn [bind call call_pure try_catch app]. rewrite String.eqb_refl.
    cbn [negb]. rewrite from_address_reward.
    cbn [bind call call_pure try_catch receiver ret throw console_log app
           message].
    rewrite network_id_reward.
    cbn [bind call call_pure try_catch ret app].
    rewrite Hs.
    cbn [bind call call_pure try_catch app]. rewrite String.eqb_refl.
    reflexivity.
Qed.

(** X11.  End to end.  Let the envelope decode and carry the payload that
    is expected, its ["address"] header hold an address [A], the key
    structure hold a public key, and the claimed address decode to [A].
    If [A] is the base address of the hash of that key with any key-hash
    stake credential, or the reward address of the hash of that key, on
    any network, then [verifySignedMessage] does not throw for a mismatch:
    once the signature decodes it returns the answer of [PublicKey.verify]
    for that key. *)
Theorem end_to_end (laws : AddressLaws S)
    (address payload coseSign1Hex coseKeyHex : string)
    (coseSign1 : COSESign1) (A : Address) (publicKeyCose : PublicKey)
    (signature : Ed25519Signature) (sig_structure : SigStructure) :
  COSESign1_from_bytes (Buffer_from_hex coseSign1Hex) = inr coseSign1 ->
  COSESign1_payload coseSign1 = Some (Buffer_from_hex payload) ->
  value (embedded_address coseSign1) = inr A ->
  value (embedded_public_key coseKeyHex) = inr publicKeyCose ->
  Address_from_bytes (Buffer_from_hex address) = inr A ->
  (exists network stakeKeyHash,
     A = BaseAddress_to_address
           (BaseAddress_new network
              (StakeCredential_from_keyhash (PublicKey_hash publicKeyCose))
              (StakeCredential_from_keyhash stakeKeyHash)))
  \/ (exists network,
        A = RewardAddress_to_address
              (RewardAddress_new network
                 (StakeCredential_from_keyhash
                    (PublicKey_hash publicKeyCose)))) ->
  Ed25519Signature_from_bytes (COSESign1_signature coseSign1) = inr signature ->
  COSESign1_signed_data coseSign1 = inr sig_structure ->
  value (verifySignedMessage address payload coseSign1Hex coseKeyHex)
  = inr (PublicKey_verify publicKeyCose
           (SigStructure_to_bytes sig_structure) signature).
Proof.
  intros Hdec Hpay EA EP Haddr HA Hsig Hsd.
  pose proof (verifyAddress_rebuilt laws address publicKeyCose HA Haddr) as VA.
  rewrite (payload_check_passes address payload coseSign1Hex coseKeyHex
             Hdec Hpay).
  rewrite (after_payload_check_run address coseKeyHex coseSign1 EA EP VA).
  unfold verify_signature. cbn [bind call call_pure]. rewrite Hsig.
  cbn [bind call call_pure]. rewrite Hsd. reflexivity.
Qed.

Lemma embedded_address_no_log (coseSign1 : COSESign1) (line : string) :
  ~ In (Log line) (trace (embedded_address coseSign1)).
Proof.
  unfold embedded_address. unfold_js.
  repeat (next_result; cbn); intuition discriminate.
Qed.

Lemma embedded_public_key_no_log (coseKeyHex line : string) :
  ~ In (Log line) (trace (embedded_public_key coseKeyHex)).
Proof.
  unfold embedded_public_key. unfold_js.
  repeat (next_result; cbn); intuition discriminate.
Qed.

Lemma verify_signature_no_log (coseSign1 : COSESign1)
    (publicKeyCose : PublicKey) (line : string) :
  ~ In (Log line) (trace (verify_signature coseSign1 publicKeyCose)).
Proof.
  unfold verify_signature. unfold_js.
  repeat (next_result; cbn); intuition discriminate.
Qed.

(** X12.  Only the address check writes to the log.  Every line that a
    run of [verifySignedMessage] logs was logged by its call of
    [verifyAddress], which therefore was reached: a run that stops at a
    decoder or at the payload check logs nothing, and neither does the
    signature check. *)
Theorem logs_come_from_verifyAddress
    (address payload coseSign1Hex coseKeyHex line : string) :
  In (Log line)
     (trace (verifySignedMessage address payload coseSign1Hex coseKeyHex)) ->
  exists coseSign1 addressCose publicKeyCose,
    COSESign1_from_bytes (Buffer_from_hex coseSign1Hex) = inr coseSign1
    /\ COSESign1_payload coseSign1 = Some (Buffer_from_hex payload)
    /\ value (embedded_address coseSign1) = inr addressCose
    /\ value (embedded_public_key coseKeyHex) = inr publicKeyCose
    /\ In (Log line)
          (trace (verifyAddress address addressCose publicKeyCose)).
Proof.
  unfold verifySignedMessage.
  destruct (COSESign1_from_bytes (Buffer_from_hex coseSign1Hex))
    as [?|coseSign1] eqn:Hdec;
    [cbn; intros [?|[]]; discriminate|].
  cbn [bind call call_pure].
  destruct (COSESign1_payload coseSign1) as [payloadCose|] eqn:Hpay;
    [|cbn; intros [?|[?|[]]]; discriminate].
  rewrite verifyPayload_run. cbn [bind app].
  destruct (truthy (Buffer_compare payloadCose (Buffer_from_hex payload)))
    eqn:Hcmp; [cbn; intros [?|[?|[]]]; discriminate|].
  apply truthy_compare in Hcmp. subst payloadCose.
  unfold after_payload_check.
  pose proof (embedded_address_no_log coseSign1 line) as N1.
  destruct (embedded_address coseSign1) as [t1 [e1|addressCose]] eqn:EA;
    cbn [trace fst] in N1;
    [cbn; intros [?|[?|?]]; solve [discriminate | tauto]|].
  cbn [bind].
  pose proof (embedded_public_key_no_log coseKeyHex line) as N2.
  destruct (embedded_public_key coseKeyHex) as [t2 [e2|publicKeyCose]] eqn:EP;
    cbn [trace fst] in N2.
  { cbn. intros [?|[?|I]]; try discriminate.
    apply in_app_or in I. tauto. }
  cbn [bind].
  pose proof (verify_signature_no_log coseSign1 publicKeyCose line) as N4.
  intros I.
  exists coseSign1, addressCose, publicKeyCose.
  rewrite ?EA, ?EP. cbn [value snd].
  repeat split; try reflexivity; try assumption.
  destruct (verifyAddress address addressCose publicKeyCose)
    as [t3 [e3|ok]]; cbn [bind trace fst] in *.
  - destruct I as [I|[I|I]]; try discriminate.
    apply in_app_or in I. destruct I as [I|I]; [tauto|].
    apply in_app_or in I. tauto.
  - destruct (if negb ok then throw (ErrorObj "Address mismatch")
              else verify_signature coseSign1 publicKeyCose)
      as [t4 r4] eqn:R.
    assert (~ In (Log line) t4) as N5.
    { destruct ok; cbn [negb] in R.
      - rewrite R in N4. exact N4.
      - unfold throw in R. injection R as <- _. intros []. }
    cbn [fst] in I.
    destruct I as [I|[I|I]]; try discriminate.
    apply in_app_or in I. destruct I as [I|I]; [tauto|].
    apply in_app_or in I. destruct I as [I|I]; [tauto|].
    apply in_app_or in I. tauto.
Qed.

End Verification.

(* ===================================================================== *)
(** ** Further runs on the stand-in packages *)
(* ===================================================================== *)

(** The sample key and its base address. *)
Lemma verifyAddress_true_inv_witness :
  exists checkAddress bech32,
    Address_from_bytes
      (Buffer_from_hex (Fixture.hex_of_address Fixture.sample_base))
    = inr checkAddress
    /\ Address_to_bech32 checkAddress = inr bech32.
Proof.
  destruct (verifyAddress_true_inv (S := Fixture.serialization)
              (Fixture.hex_of_address Fixture.sample_base)
              Fixture.sample_base Fixture.sample_key
              ltac:(vm_compute; reflexivity))
    as (checkAddress & bech32 & network & Hdec & _ & Hcheck & _).
  exists checkAddress, bech32. split; assumption.
Defined.

(** The sample key rebuilds its base address. *)
Lemma base_path_verdict_witness :
  value (verifyAddress (Fixture.hex_of_address Fixture.sample_base)
           Fixture.sample_base Fixture.sample_key) = inr true.
Proof.
  exact (f_equal snd
           (base_path_verdict (S := Fixture.serialization)
              (Fixture.hex_of_address Fixture.sample_base)
              Fixture.sample_base
              (checkAddress := Fixture.sample_base)
              Fixture.sample_key
              (baseAddress :=
                 {| Fixture.base_network := 0;
                    Fixture.base_payment :=
                      Fixture.KeyCred (Fixture.key_hash Fixture.sample_key);
                    Fixture.base_stake :=
                      Fixture.KeyCred Fixture.sample_stake_hash |})
              (stakeKeyHash := Fixture.sample_stake_hash)
              (network := 0%N)
              ltac:(vm_compute; reflexivity)
              ltac:(reflexivity)
              ltac:(reflexivity)
              ltac:(reflexivity)
              ltac:(reflexivity)
              ltac:(reflexivity)
              ltac:(reflexivity))).
Defined.

(** The reward address of another key, checked against the sample key. *)
Lemma reward_path_verdict_witness :
  value (verifyAddress (Fixture.hex_of_address Samples.other_reward)
           Samples.other_reward Fixture.sample_key) = inr false.
Proof.
  exact (f_equal snd
           (reward_path_verdict (S := Fixture.serialization)
              (Fixture.hex_of_address Samples.other_reward)
              Samples.other_reward
              (checkAddress := Samples.other_reward)
              Fixture.sample_key
              (network := 1%N)
              ltac:(vm_compute; reflexivity)
              ltac:(reflexivity)
              ltac:(reflexivity)
              ltac:(reflexivity)
              ltac:(reflexivity)
              ltac:(reflexivity))).
Defined.


(** The envelope claims the base address of the sample key; the caller
    claims its reward address. *)
Lemma address_mismatch_throws_witness :
  value (verifySignedMessage (Fixture.hex_of_address Fixture.sample_reward)
           Fixture.sample_payload_hex
           (Fixture.sample_envelope_hex Fixture.sample_base)
           (Fixture.key_hex Fixture.sample_key))
  = inl (ErrorObj "Address mismatch").
Proof.
  exact (f_equal snd
           (address_mismatch_throws (S := Fixture.serialization)
              (MS := Fixture.message_signing)
              (Fixture.hex_of_address Fixture.sample_reward)
              Fixture.sample_payload_hex
              (Fixture.sample_envelope_hex Fixture.sample_base)
              (Fixture.key_hex Fixture.sample_key)
              (coseSign1 := Fixture.sample_envelope Fixture.sample_base)
              (addressCose := Fixture.sample_base)
              (publicKeyCose := Fixture.sample_key)
              ltac:(vm_compute; reflexivity)
              ltac:(reflexivity)
              ltac:(vm_compute; reflexivity)
              ltac:(vm_compute; reflexivity)
              ltac:(vm_compute; reflexivity))).
Defined.

Lemma missing_address_header_throws_witness :
  value (verifySignedMessage (Fixture.hex_of_address Fixture.sample_base)
           Fixture.sample_payload_hex Samples.headerless_envelope_hex
           (Fixture.key_hex Fixture.sample_key))
  = inl (TypeError "Cannot read properties of undefined (reading 'as_bytes')").
Proof.
  exact (f_equal snd
           (missing_address_header_throws (S := Fixture.serialization)
              (MS := Fixture.message_signing)
              (Fixture.hex_of_address Fixture.sample_base)
              Fixture.sample_payload_hex Samples.headerless_envelope_hex
              (Fixture.key_hex Fixture.sample_key)
              (coseSign1 := Samples.headerless_envelope)
              ltac:(vm_compute; reflexivity)
              ltac:(reflexivity)
              ltac:(reflexivity))).
Defined.

Lemma missing_public_key_label_throws_witness :
  value (verifySignedMessage (Fixture.hex_of_address Fixture.sample_base)
           Fixture.sample_payload_hex
           (Fixture.sample_envelope_hex Fixture.sample_base)
           Samples.keyless_hex)
  = inl (TypeError "Cannot read properties of undefined (reading 'as_bytes')").
Proof.
  exact (f_equal snd
           (missing_public_key_label_throws (S := Fixture.serialization)
              (MS := Fixture.message_signing)
              (Fixture.hex_of_address Fixture.sample_base)
              Fixture.sample_payload_hex
              (Fixture.sample_envelope_hex Fixture.sample_base)
              Samples.keyless_hex
              (coseSign1 := Fixture.sample_envelope Fixture.sample_base)
              (addressCose := Fixture.sample_base)
              (coseKey := [(Fixture.LInt (-1), Fixture.CBytes [x06])])
              (two := 2%N)
              ltac:(vm_compute; reflexivity)
              ltac:(reflexivity)
              ltac:(vm_compute; reflexivity)
              ltac:(vm_compute; reflexivity)
              ltac:(reflexivity)
              ltac:(reflexivity))).
Defined.

Lemma malformed_signature_throws_witness :
  value (verifySignedMessage (Fixture.hex_of_address Fixture.sample_base)
           Fixture.sample_payload_hex
           (Samples.short_signature_envelope_hex Fixture.sample_base)
           (Fixture.key_hex Fixture.sample_key))
  = inl (LibThrown "signature: expected 64 bytes").
Proof.
  exact (f_equal snd
           (malformed_signature_throws (S := Fixture.serialization)
              (MS := Fixture.message_signing)
              (Fixture.hex_of_address Fixture.sample_base)
              Fixture.sample_payload_hex
              (Samples.short_signature_envelope_hex Fixture.sample_base)
              (Fixture.key_hex Fixture.sample_key)
              (coseSign1 := Samples.short_signature_envelope Fixture.sample_base)
              (addressCose := Fixture.sample_base)
              (publicKeyCose := Fixture.sample_key)
              ltac:(vm_compute; reflexivity)
              ltac:(reflexivity)
              ltac:(vm_compute; reflexivity)
              ltac:(vm_compute; reflexivity)
              ltac:(vm_compute; reflexivity)
              ltac:(reflexivity))).
Defined.

(** Both checks pass, but the envelope was signed by another key: the
    verdict is false, not a throw. *)
Lemma checks_passed_verdict_witness :
  value (verifySignedMessage (Fixture.hex_of_address Fixture.sample_base)
           Fixture.sample_payload_hex
           (Samples.forged_envelope_hex Fixture.sample_base)
           (Fixture.key_hex Fixture.sample_key))
  = inr false.
Proof.
  exact (f_equal snd
           (checks_passed_verdict (S := Fixture.serialization)
              (MS := Fixture.message_signing)
              (Fixture.hex_of_address Fixture.sample_base)
              Fixture.sample_payload_hex
              (Samples.forged_envelope_hex Fixture.sample_base)
              (Fixture.key_hex Fixture.sample_key)
              (coseSign1 := Samples.forged_envelope Fixture.sample_base)
              (addressCose := Fixture.sample_base)
              (publicKeyCose := Fixture.sample_key)
              (signature :=
                 Fixture.sign Fixture.other_key
                   (Fixture.address_to_bytes Fixture.sample_base
                      ++ Buffer_from_hex Fixture.sample_payload_hex))
              (sig_structure :=
                 Fixture.address_to_bytes Fixture.sample_base
                   ++ Buffer_from_hex Fixture.sample_payload_hex)
              ltac:(vm_compute; reflexivity)
              ltac:(reflexivity)
              ltac:(vm_compute; reflexivity)
              ltac:(vm_compute; reflexivity)
              ltac:(vm_compute; reflexivity)
              ltac:(vm_compute; reflexivity)
              ltac:(vm_compute; reflexivity))).
Defined.


Lemma end_to_end_witness :
  value (verifySignedMessage (Fixture.hex_of_address Fixture.sample_base)
           Fixture.sample_payload_hex
           (Fixture.sample_envelope_hex Fixture.sample_base)
           (Fixture.key_hex Fixture.sample_key))
  = inr true.
Proof.
  exact (end_to_end (S := Fixture.serialization)
           (MS := Fixture.message_signing) fixture_address_laws
           (Fixture.hex_of_address Fixture.sample_base)
           Fixture.sample_payload_hex
           (Fixture.sample_envelope_hex Fixture.sample_base)
           (Fixture.key_hex Fixture.sample_key)
           (coseSign1 := Fixture.sample_envelope Fixture.sample_base)
           (A := Fixture.sample_base)
           (publicKeyCose := Fixture.sample_key)
           (signature :=
              Fixture.sign Fixture.sample_key
                (Fixture.address_to_bytes Fixture.sample_base
                   ++ Buffer_from_hex Fixture.sample_payload_hex))
           (sig_structure :=
              Fixture.address_to_bytes Fixture.sample_base
                ++ Buffer_from_hex Fixture.sample_payload_hex)
           ltac:(vm_compute; reflexivity)
           ltac:(reflexivity)
           ltac:(vm_compute; reflexivity)
           ltac:(vm_compute; reflexivity)
           ltac:(vm_compute; reflexivity)
           (or_introl
              (ex_intro _ 0%N (ex_intro _ Fixture.sample_stake_hash eq_refl)))
           ltac:(vm_compute; reflexivity)
           ltac:(vm_compute; reflexivity)).
Defined.

(** The claimed address "zz": the one line of the run is the one
    [verifyAddress] wrote. *)
Lemma logs_come_from_verifyAddress_witness :
  exists addressCose publicKeyCose,
    In (Log "---> Could not verify address, error: address: no header byte")
       (trace (verifyAddress (S := Fixture.serialization) "zz"
                 addressCose publicKeyCose)).
Proof.
  destruct (logs_come_from_verifyAddress (S := Fixture.serialization)
              (MS := Fixture.message_signing)
              "zz" Fixture.sample_payload_hex
              (Fixture.sample_envelope_hex Fixture.sample_base)
              (Fixture.key_hex Fixture.sample_key)
              "---> Could not verify address, error: address: no header byte"
              ltac:(vm_compute; repeat ((left; reflexivity) || right)))
    as (c & a & k & _ & _ & _ & _ & I).
  exists a, k. exact I.
Defined.
